(** * Dataset / buffer handler of power-grid-model: a shallow embedding

    The development follows
    [power_grid_model/auxiliary/dataset_handler.hpp]: the structs
    [ComponentInfo], [DatasetDescription] and [Buffer] are records, the class
    [DatasetHandler] is a record of its two private members together with one
    function per member function.  A member function that can throw is a
    computation over the handler that returns an [outcome] and the handler
    as the C++ object is left when control leaves the call: an exception
    does not roll anything back. *)

From Stdlib Require Import ZArith Lia.
From stdpp Require Import base list strings gmap.

Local Open Scope Z_scope.

(** ** [Idx], pointers and spans *)

(** [using Idx = int64_t].  An [Idx] is an integer in
    [[Idx_min, Idx_max]]; signed overflow is undefined behaviour in C++ and
    is reported as such by the operations below. *)
Definition Idx : Type := Z.
Definition Idx_min : Z := - 2 ^ 63.
Definition Idx_max : Z := 2 ^ 63 - 1.
Definition in_Idx (z : Z) : Prop := Idx_min <= z <= Idx_max.
Definition in_Idxb (z : Z) : bool := (Idx_min <=? z) && (z <=? Idx_max).

(** What a call can do: return, throw, or leave the behaviour undefined
    (an out-of-bounds read, a signed overflow). *)
Inductive exception : Type :=
| DatasetError   (* power_grid_model::DatasetError *)
| out_of_range.  (* std::out_of_range, thrown by the meta data look-ups *)

Inductive outcome (A : Type) : Type :=
| Returns (a : A)
| Throws (e : exception)
| Undefined.
Arguments Returns {A} a.
Arguments Throws {A} e.
Arguments Undefined {A}.

(** [a * b] and [a + b] on [Idx]. *)
Definition Idx_mul (a b : Idx) : outcome Idx :=
  if in_Idxb (a * b) then Returns (a * b) else Undefined.
Definition Idx_add (a b : Idx) : outcome Idx :=
  if in_Idxb (a + b) then Returns (a + b) else Undefined.

(** [static_cast<size_t>(i)]: conversion to a 64-bit unsigned integer. *)
Definition to_size_t (i : Idx) : Z := i mod 2 ^ 64.

(** [Data*]: a type-erased address; [nullptr_data] is the null pointer. *)
Definition Data : Type := Z.
Definition nullptr_data : Data := 0.

(** [Indptr*]: either [nullptr] ([None]) or a pointer to the first element
    of an array of [Idx] owned by the caller ([Some arr]). *)
Definition Indptr : Type := option (list Idx).

(** [indptr[i]]: reading outside the caller's array is undefined. *)
Definition read_indptr (arr : list Idx) (i : Idx) : outcome Idx :=
  if i <? 0 then Undefined
  else match arr !! Z.to_nat i with
       | Some x => Returns x
       | None => Undefined
       end.

(** [std::span<Indptr>]: a pointer and an element count. *)
Record span_Indptr : Type := mk_span { span_ptr : Indptr; span_size : Z }.
Definition empty_span : span_Indptr := {| span_ptr := None; span_size := 0 |}.

(** ** Meta data

    [meta_data.hpp] is not part of the sources at hand; the handler only
    uses the name of a component and the look-up by name. *)
Record MetaComponent : Type := { name : string }.
Record MetaDataset : Type :=
  { dataset_name : string; components : list MetaComponent }.

(** First position at which [p] holds, [length l] when there is none
    ([std::find_if] returning [end]). *)
Fixpoint find_if {A : Type} (p : A -> bool) (l : list A) : nat :=
  match l with
  | [] => O
  | x :: l' => if p x then O else S (find_if p l')
  end.

(** Modelled from the spec: [MetaDataset::get_component], of [meta_data.hpp]
    which is missing here.  "[DatasetKind.get_component(name) -> Component]
    ... fail[s] if unknown"; the unit tests expect [std::out_of_range]. *)
Definition get_component (d : MetaDataset) (component : string)
  : outcome MetaComponent :=
  match components d !! find_if (fun c => String.eqb (name c) component) (components d) with
  | Some c => Returns c
  | None => Throws out_of_range
  end.

(** Modelled from the spec: [MetaData::get_dataset], of [meta_data.hpp]
    which is missing here; it fails in the same way for an unknown name. *)
Definition get_dataset (meta : list MetaDataset) (dataset : string)
  : outcome MetaDataset :=
  match meta !! find_if (fun d => String.eqb (dataset_name d) dataset) meta with
  | Some d => Returns d
  | None => Throws out_of_range
  end.

(** ** The structs of the header *)

Record ComponentInfo : Type :=
  { component : MetaComponent;
    (* for non-uniform component, this is -1 *)
    elements_per_scenario : Idx;
    total_elements : Idx }.

Record DatasetDescription : Type :=
  { is_batch : bool;
    batch_size : Idx;
    dataset : MetaDataset;
    component_info : list ComponentInfo }.

Record Buffer : Type :=
  { data : Data;
    (* for uniform buffer, indptr is empty *)
    indptr : span_Indptr }.

(** [Buffer{}] *)
Definition Buffer_default : Buffer :=
  {| data := nullptr_data; indptr := empty_span |}.

(** ** The class [DatasetHandler]

    The template parameters [data_mutable] and [indptr_mutable] only change
    the constness of the pointees; the three aliases [ConstDatasetHandler],
    [MutableDatasetHandler] and [WritableDatasetHandler] run the same code. *)
Module DatasetHandler.

Record t : Type :=
  { description_ : DatasetDescription;
    buffers_ : list Buffer }.

(** A member function: the outcome and the object afterwards. *)
Definition method (A : Type) : Type := t -> outcome A * t.

Definition ret {A} (a : A) : method A := fun h => (Returns a, h).
Definition throw {A} (e : exception) : method A := fun h => (Throws e, h).
Definition bind {A B} (m : method A) (k : A -> method B) : method B :=
  fun h =>
    match m h with
    | (Returns a, h') => k a h'
    | (Throws e, h') => (Throws e, h')
    | (Undefined, h') => (Undefined, h')
    end.
(** a [const] member function, or any computation that leaves the object
    alone *)
Definition const {A} (f : t -> outcome A) : method A := fun h => (f h, h).
Definition modify (f : t -> t) : method unit := fun h => (Returns tt, f h).

Notation "'let*' x ':=' m 'in' k" := (bind m (fun x => k))
  (at level 10, x name, m at level 100, k at level 200).
Notation "m ';;;' k" := (bind m (fun _ => k))
  (at level 100, k at level 200, right associativity).

(** The constructor. *)
Definition make (meta : list MetaDataset)
           (is_batch : bool) (batch_size : Idx) (dataset : string) : outcome t :=
  match get_dataset meta dataset with
  | Returns d =>
      if negb is_batch && negb (batch_size =? 1) then Throws DatasetError
      else Returns {| description_ :=
                        Build_DatasetDescription is_batch batch_size d [];
                      buffers_ := [] |}
  | Throws e => Throws e
  | Undefined => Undefined
  end.

Definition is_batch (h : t) : bool := is_batch (description_ h).
Definition batch_size (h : t) : Idx := batch_size (description_ h).
Definition dataset (h : t) : MetaDataset := dataset (description_ h).
Definition n_components (h : t) : Idx := Z.of_nat (length (buffers_ h)).
Definition get_description (h : t) : DatasetDescription := description_ h.

(** [v[i]] on a [std::vector]: no bounds check. *)
Definition at_index {A} (v : list A) (i : Idx) : outcome A :=
  if i <? 0 then Undefined
  else match v !! Z.to_nat i with
       | Some x => Returns x
       | None => Undefined
       end.

Definition get_component_info_idx (h : t) (i : Idx) : outcome ComponentInfo :=
  at_index (component_info (description_ h)) i.

Definition get_buffer_idx (h : t) (i : Idx) : outcome Buffer :=
  at_index (buffers_ h) i.

(** the predicate of [find_component]:
    [x.component->name == component] *)
Definition name_is (wanted : string) (x : ComponentInfo) : bool :=
  String.eqb (name (component x)) wanted.

Definition find_component (h : t) (component : string) (throw_not_found : bool)
  : outcome Idx :=
  let found :=
    find_if (name_is component) (component_info (description_ h)) in
  if (found =? length (component_info (description_ h)))%nat then
    if throw_not_found then Throws DatasetError else Returns (-1)
  else Returns (Z.of_nat found).

Definition get_buffer (h : t) (component : string) : outcome Buffer :=
  match find_component h component true with
  | Returns i => get_buffer_idx h i
  | Throws e => Throws e
  | Undefined => Undefined
  end.

Definition get_component_info (h : t) (component : string) : outcome ComponentInfo :=
  match find_component h component true with
  | Returns i => at_index (component_info (description_ h)) i
  | Throws e => Throws e
  | Undefined => Undefined
  end.

Definition check_uniform_integrity (elements_per_scenario total_elements : Idx)
  : method unit :=
  fun h =>
    if 0 <=? elements_per_scenario then
      match Idx_mul elements_per_scenario (batch_size h) with
      | Returns prod =>
          if negb (prod =? total_elements) then (Throws DatasetError, h)
          else (Returns tt, h)
      | Throws e => (Throws e, h)
      | Undefined => (Undefined, h)
      end
    else (Returns tt, h).

Definition check_non_uniform_integrity (check_indptr_content : bool)
           (elements_per_scenario total_elements : Idx) (indptr : Indptr)
  : method unit :=
  fun h =>
    if elements_per_scenario <? 0 then
      match indptr with
      | None => (Throws DatasetError, h)
      | Some arr =>
          if check_indptr_content then
            match read_indptr arr 0 with
            | Returns first =>
                if negb (first =? 0) then (Throws DatasetError, h)
                else
                  match read_indptr arr (batch_size h) with
                  | Returns last =>
                      if negb (last =? total_elements)
                      then (Throws DatasetError, h)
                      else (Returns tt, h)
                  | Throws e => (Throws e, h)
                  | Undefined => (Undefined, h)
                  end
            | Throws e => (Throws e, h)
            | Undefined => (Undefined, h)
            end
          else (Returns tt, h)
      end
    else
      match indptr with
      | Some _ => (Throws DatasetError, h)
      | None => (Returns tt, h)
      end.

(** [description_.component_info.push_back(info)] *)
Definition push_back_info (info : ComponentInfo) (h : t) : t :=
  {| description_ :=
       Build_DatasetDescription (is_batch h) (batch_size h) (dataset h)
         (component_info (description_ h) ++ [info]);
     buffers_ := buffers_ h |}.

(** [buffers_.push_back(b)] *)
Definition push_back_buffer (b : Buffer) (h : t) : t :=
  {| description_ := description_ h; buffers_ := buffers_ h ++ [b] |}.

Definition add_component_info (component : string)
           (elements_per_scenario total_elements : Idx) : method unit :=
  let* found := const (fun h => find_component h component false) in
  if 0 <=? found then throw DatasetError
  else
    let* c := const (fun h => get_component (dataset h) component) in
    modify (push_back_info
              (Build_ComponentInfo c elements_per_scenario total_elements)) ;;;
    modify (push_back_buffer Buffer_default) ;;;
    check_uniform_integrity elements_per_scenario total_elements.

(** The span [{indptr, static_cast<size_t>(batch_size() + 1)}], or [{}]
    for a null [indptr]. *)
Definition make_indptr_span (indptr : Indptr) (h : t) : outcome span_Indptr :=
  match indptr with
  | Some arr =>
      match Idx_add (batch_size h) 1 with
      | Returns n => Returns {| span_ptr := Some arr; span_size := to_size_t n |}
      | Throws e => Throws e
      | Undefined => Undefined
      end
  | None => Returns empty_span
  end.

(** [buffers_[i] = b] *)
Definition assign_buffer (i : nat) (b : Buffer) (h : t) : t :=
  {| description_ := description_ h; buffers_ := <[i := b]> (buffers_ h) |}.

(** [buffers_.back().data = data; buffers_.back().indptr = sp] *)
Definition set_back (data : Data) (indptr : Indptr) : method unit :=
  fun h =>
    match length (buffers_ h) with
    | O => (Undefined, h)
    | S n =>
        match make_indptr_span indptr h with
        | Returns sp =>
            (Returns tt, assign_buffer n (Build_Buffer data sp) h)
        | Throws e => (Throws e, h)
        | Undefined => (Undefined, h)
        end
    end.

Definition add_buffer (component : string)
           (elements_per_scenario total_elements : Idx)
           (indptr : Indptr) (data : Data) : method unit :=
  add_component_info component elements_per_scenario total_elements ;;;
  check_non_uniform_integrity true elements_per_scenario total_elements indptr ;;;
  set_back data indptr.

Definition set_buffer (component : string) (indptr : Indptr) (data : Data)
  : method unit :=
  let* idx := const (fun h => find_component h component true) in
  let* info := const (fun h => at_index (component_info (description_ h)) idx) in
  check_non_uniform_integrity false
    (elements_per_scenario info) (total_elements info) indptr ;;;
  fun h =>
    match at_index (buffers_ h) idx with
    | Returns _ =>
        match make_indptr_span indptr h with
        | Returns sp =>
            (Returns tt, assign_buffer (Z.to_nat idx) (Build_Buffer data sp) h)
        | Throws e => (Throws e, h)
        | Undefined => (Undefined, h)
        end
    | Throws e => (Throws e, h)
    | Undefined => (Undefined, h)
    end.

End DatasetHandler.


(** ** Span queries and the scenario slicer

    [dataset.hpp], which declares the span queries, the scenario slicer and
    the range object exercised by [test_dataset.cpp], is not part of the
    sources at hand.  The definitions of this part are written from the
    specification and run on the handler above. *)

(** [std::span<StructType>] over the element data: first element (counted
    in elements from address [0]) and number of elements. *)
Record span_Data : Type := { start : Data; size : Z }.

(** [DatasetType::invalid_index], the value the tests pass for "all
    scenarios" and the sentinel of [find_component]. *)
Definition invalid_index : Idx := -1.

(** [sp[i]] on a [std::span<Indptr>]. *)
Definition read_span (sp : span_Indptr) (i : Idx) : outcome Idx :=
  if (i <? 0) || (span_size sp <=? i) then Undefined
  else match span_ptr sp with
       | Some arr => read_indptr arr i
       | None => Undefined
       end.

(** Modelled from the spec: [get_buffer_span] of [dataset.hpp], which is
    missing here.  "[scenario = "all"] yields the whole [total_elements]
    range; an explicit scenario index yields the slice
    [[offset_index[s], offset_index[s+1])] for ragged components or
    [[s*elements_per_scenario, (s+1)*elements_per_scenario)] for uniform
    components.  Fails with [DatasetError] if the scenario index is out of
    [[0, batch_size)]."  The component is looked up as [get_buffer] does. *)
Definition get_buffer_span (h : DatasetHandler.t) (component : string)
           (scenario : Idx) : outcome span_Data :=
  match DatasetHandler.find_component h component true with
  | Returns idx =>
      match DatasetHandler.get_component_info_idx h idx,
            DatasetHandler.get_buffer_idx h idx with
      | Returns info, Returns buffer =>
          if scenario =? invalid_index then
            Returns {| start := data buffer; size := total_elements info |}
          else if (scenario <? 0) || (DatasetHandler.batch_size h <=? scenario) then
            Throws DatasetError
          else if elements_per_scenario info <? 0 then
            match read_span (indptr buffer) scenario,
                  read_span (indptr buffer) (scenario + 1) with
            | Returns first, Returns last =>
                Returns {| start := data buffer + first; size := last - first |}
            | Throws e, _ => Throws e
            | Returns _, Throws e => Throws e
            | _, _ => Undefined
            end
          else
            Returns {| start := data buffer + scenario * elements_per_scenario info;
                       size := (scenario + 1) * elements_per_scenario info
                               - scenario * elements_per_scenario info |}
      | Throws e, _ => Throws e
      | Returns _, Throws e => Throws e
      | _, _ => Undefined
      end
  | Throws e => Throws e
  | Undefined => Undefined
  end.

(** The loop of [get_buffer_span_all_scenarios]: [n] more scenarios, the
    next one being [scenario]. *)
Fixpoint all_scenarios_from (h : DatasetHandler.t) (component : string)
         (n : nat) (scenario : Idx) : outcome (list span_Data) :=
  match n with
  | O => Returns []
  | S n' =>
      match get_buffer_span h component scenario with
      | Returns sp =>
          match all_scenarios_from h component n' (scenario + 1) with
          | Returns rest => Returns (sp :: rest)
          | Throws e => Throws e
          | Undefined => Undefined
          end
      | Throws e => Throws e
      | Undefined => Undefined
      end
  end.

(** Modelled from the spec: [get_buffer_span_all_scenarios] of
    [dataset.hpp], which is missing here.  It "produces, in scenario order,
    the ordered sequence of per-scenario spans (length = batch_size)". *)
Definition get_buffer_span_all_scenarios (h : DatasetHandler.t)
           (component : string) : outcome (list span_Data) :=
  all_scenarios_from h component (Z.to_nat (DatasetHandler.batch_size h)) 0.

(** The same sequence in the words of the specification: "equivalent to
    calling the single-scenario accessor for every index". *)
Definition spans_of_every_scenario (h : DatasetHandler.t) (component : string)
  : list (outcome span_Data) :=
  (fun s : nat => get_buffer_span h component (Z.of_nat s))
    <$> seq 0 (Z.to_nat (DatasetHandler.batch_size h)).

(** Attach to the handler under construction the slice at [scenario] of
    every component of [src] listed in [infos], in attach order. *)
Fixpoint add_sliced_buffers (src : DatasetHandler.t) (scenario : Idx)
         (infos : list ComponentInfo) : DatasetHandler.method unit :=
  match infos with
  | [] => DatasetHandler.ret tt
  | info :: rest =>
      DatasetHandler.bind
        (DatasetHandler.const
           (fun _ => get_buffer_span src (name (component info)) scenario))
        (fun sp =>
           DatasetHandler.bind
             (DatasetHandler.add_buffer (name (component info))
                (size sp) (size sp) None (start sp))
             (fun _ => add_sliced_buffers src scenario rest))
  end.

(** Modelled from the spec: [get_individual_scenario] of [dataset.hpp],
    which is missing here.  It "returns a new, non-batch (batch_size=1)
    handler ... sharing the same underlying buffer memory, where every
    attached component's span is pre-sliced to that scenario"; the test
    expects [elements_per_scenario] and [total_elements] of every component
    of the result to be the size of the slice. *)
Definition get_individual_scenario (h : DatasetHandler.t) (scenario : Idx)
  : outcome DatasetHandler.t :=
  let result :=
    {| DatasetHandler.description_ :=
         Build_DatasetDescription false 1 (DatasetHandler.dataset h) [];
       DatasetHandler.buffers_ := [] |} in
  match add_sliced_buffers h scenario
          (component_info (DatasetHandler.description_ h)) result with
  | (Returns _, result') => Returns result'
  | (Throws e, _) => Throws e
  | (Undefined, _) => Undefined
  end.

(** ** The columnar overlay (range object) *)

Module RangeObject.

(** The scalar types of the attributes and their values.  A [double] is
    kept as its 64 bits: gathering and scattering copy representations, so
    a not-a-number travels like any other value. *)
Inductive CType : Type := c_int32 | c_int8 | c_double.

Inductive scalar : Type :=
| int32_value (i : Z)
| int8_value (i : Z)
| double_bits (bits : Z).

(** [na_IntID], [na_IntS] and [nan] *)
Definition na_value (c : CType) : scalar :=
  match c with
  | c_int32 => int32_value (- 2 ^ 31)
  | c_int8 => int8_value (- 2 ^ 7)
  | c_double => double_bits 0x7FF8000000000000
  end.

Record MetaAttribute : Type := { attribute_name : string; ctype : CType }.

(** A logical record: the value of each field, by attribute name. *)
Abbreviation record := (gmap string scalar).

(** The caller's columns: the array found at each address. *)
Abbreviation memory := (gmap Z (list scalar)).

(** The default-constructed record of a type with the given fields:
    every field is not-a-value. *)
Definition default_record (fields : list MetaAttribute) : record :=
  list_to_map ((fun a => (attribute_name a, na_value (ctype a))) <$> fields).

(** Modelled from the spec: the range object of [dataset.hpp], which is
    missing here.  It is constructed from "(length,
    array-of-attribute-pointers, array-of-attribute-descriptors)"; [fields]
    is the logical record type it is instantiated at. *)
Record t : Type :=
  { fields : list MetaAttribute;
    size : Idx;
    buffers : list Data;
    attributes : list MetaAttribute }.

(** The attached columns: each descriptor with its array. *)
Definition columns (r : t) : list (MetaAttribute * Data) :=
  zip (attributes r) (buffers r).

(** "converting a Proxy to the logical record type gathers each present
    field by reading [array[attribute][i]]" *)
Fixpoint gather (mem : memory) (i : nat) (cols : list (MetaAttribute * Data))
         (acc : record) : outcome record :=
  match cols with
  | [] => Returns acc
  | (a, p) :: rest =>
      match mem !! p with
      | Some arr =>
          match arr !! i with
          | Some x => gather mem i rest (<[attribute_name a := x]> acc)
          | None => Undefined
          end
      | None => Undefined
      end
  end.

(** "assigning a logical record value to a Proxy ... scatters each present
    field to [array[attribute][i]]" *)
Fixpoint scatter (v : record) (i : nat) (cols : list (MetaAttribute * Data))
         (mem : memory) : outcome memory :=
  match cols with
  | [] => Returns mem
  | (a, p) :: rest =>
      match mem !! p, v !! attribute_name a with
      | Some arr, Some x =>
          if (i <? length arr)%nat
          then scatter v i rest (<[p := <[i := x]> arr]> mem)
          else Undefined
      | _, _ => Undefined
      end
  end.

(** [static_cast<StructType>(range[i])], on the memory as it is now *)
Definition get (r : t) (i : Idx) (mem : memory) : outcome record :=
  if (i <? 0) || (size r <=? i) then Undefined
  else gather mem (Z.to_nat i) (columns r) (default_record (fields r)).

(** [range[i] = v]: the memory after the assignment *)
Definition set (r : t) (i : Idx) (v : record) (mem : memory) : outcome memory :=
  if (i <? 0) || (size r <=? i) then Undefined
  else scatter v (Z.to_nat i) (columns r) mem.

End RangeObject.

(** ** Predicates used in the statements *)

(** [c] names a component attached to the handler. *)
Definition attached (h : DatasetHandler.t) (c : string) : Prop :=
  exists x, x ∈ component_info (DatasetHandler.description_ h)
            /\ name (component x) = c.

(** [c] names a component of the dataset kind. *)
Definition known (d : MetaDataset) (c : string) : Prop :=
  exists m, m ∈ components d /\ name m = c.

(** What every handler built by the constructor and the member functions
    satisfies: one buffer per component, no name attached twice, and every
    attached component is the one its dataset kind gives for its name. *)
Record wf (h : DatasetHandler.t) : Prop :=
  { wf_length :
      length (DatasetHandler.buffers_ h)
      = length (component_info (DatasetHandler.description_ h));
    wf_nodup :
      NoDup ((fun x => name (component x))
               <$> component_info (DatasetHandler.description_ h));
    wf_known :
      forall x, x ∈ component_info (DatasetHandler.description_ h) ->
                get_component (DatasetHandler.dataset h) (name (component x))
                = Returns (component x) }.

(** The object after the two [push_back] of [add_component_info]. *)
Definition pushed (info : ComponentInfo) (h : DatasetHandler.t) : DatasetHandler.t :=
  DatasetHandler.push_back_buffer Buffer_default
    (DatasetHandler.push_back_info info h).

(** The sentence of the specification about one [add_buffer] call, word for
    word: the two ragged failures, the uniform failure, and "otherwise the
    buffer is stored with an offset-index span of length batch_size + 1". *)
Definition add_buffer_as_stated (h : DatasetHandler.t) (c : string)
           (e tot : Idx) (ip : Indptr) (d : Data) : Prop :=
  let r := DatasetHandler.add_buffer c e tot ip d h in
  let ragged_failure :=
    e = -1 /\ (ip = None
               \/ exists arr, ip = Some arr
                    /\ (arr !! 0%nat <> Some 0
                        \/ arr !! Z.to_nat (DatasetHandler.batch_size h) <> Some tot)) in
  let uniform_failure := 0 <= e /\ ip <> None in
  (ragged_failure -> fst r = Throws DatasetError)
  /\ (uniform_failure -> fst r = Throws DatasetError)
  /\ (~ ragged_failure -> ~ uniform_failure ->
      fst r = Returns tt
      /\ exists b, last (DatasetHandler.buffers_ (snd r)) = Some b
                   /\ span_size (indptr b) = DatasetHandler.batch_size h + 1).

(** The sentence of the specification about looking up an absent
    component, word for word: [find_component] gives the sentinel or fails,
    and [get_component_info] "fails with DatasetError if absent", by name
    or by index. *)
Definition absent_lookup_as_stated (h : DatasetHandler.t) : Prop :=
  (forall c, ~ attached h c ->
     DatasetHandler.find_component h c false = Returns (-1)
     /\ DatasetHandler.find_component h c true = Throws DatasetError
     /\ DatasetHandler.get_component_info h c = Throws DatasetError)
  /\ (forall i : Idx,
        ~ (0 <= i < DatasetHandler.n_components h) ->
        DatasetHandler.get_component_info_idx h i = Throws DatasetError).

(** What [get_individual_scenario] attaches for a component whose slice is
    [sp]: the component with the size of the slice as both cardinalities,
    and a buffer that starts where the slice starts. *)
Definition sliced_info (info : ComponentInfo) (sp : span_Data) : ComponentInfo :=
  Build_ComponentInfo (component info) (size sp) (size sp).
Definition sliced_buffer (sp : span_Data) : Buffer :=
  Build_Buffer (start sp) empty_span.


(** ** Programs over a handler *)

(** A call of one of the three member functions that change a handler. *)
Inductive call : Type :=
| call_add_component_info (c : string) (e tot : Idx)
| call_add_buffer (c : string) (e tot : Idx) (ip : Indptr) (d : Data)
| call_set_buffer (c : string) (ip : Indptr) (d : Data).

Definition run_call (k : call) : DatasetHandler.method unit :=
  match k with
  | call_add_component_info c e tot => DatasetHandler.add_component_info c e tot
  | call_add_buffer c e tot ip d => DatasetHandler.add_buffer c e tot ip d
  | call_set_buffer c ip d => DatasetHandler.set_buffer c ip d
  end.

(** The handlers a program can hold: constructed, then changed by calls of
    defined behaviour, whether they return or throw. *)
Inductive reachable (meta : list MetaDataset) : DatasetHandler.t -> Prop :=
| reachable_make (b : bool) (n : Idx) (d : string) (h : DatasetHandler.t) :
    DatasetHandler.make meta b n d = Returns h -> reachable meta h
| reachable_call (h : DatasetHandler.t) (k : call) :
    reachable meta h -> fst (run_call k h) <> Undefined ->
    reachable meta (snd (run_call k h)).

(** The handlers built without a failure: constructed, then changed by
    calls that all returned. *)
Inductive built (meta : list MetaDataset) : DatasetHandler.t -> Prop :=
| built_make (b : bool) (n : Idx) (d : string) (h : DatasetHandler.t) :
    DatasetHandler.make meta b n d = Returns h -> built meta h
| built_call (h : DatasetHandler.t) (k : call) :
    built meta h -> fst (run_call k h) = Returns tt ->
    built meta (snd (run_call k h)).

(** The component a call names. *)
Definition call_component (k : call) : string :=
  match k with
  | call_add_component_info c _ _ => c
  | call_add_buffer c _ _ _ _ => c
  | call_set_buffer c _ _ => c
  end.
(** ** A small schema and handlers to evaluate the code on *)

Definition A : MetaComponent := {| name := "A" |}.
Definition B : MetaComponent := {| name := "B" |}.
Definition input : MetaDataset :=
  {| dataset_name := "input"; components := [A; B] |}.
Definition update : MetaDataset :=
  {| dataset_name := "update"; components := [A; B] |}.
Definition test_meta_data : list MetaDataset := [input; update].

(** [DatasetHandler{true, n, "input"}] with nothing attached *)
Definition batch_input (n : Idx) : DatasetHandler.t :=
  {| DatasetHandler.description_ := Build_DatasetDescription true n input [];
     DatasetHandler.buffers_ := [] |}.


(** A batch of two scenarios with "A" attached as a ragged component of
    five elements, its buffer not yet supplied: the handler a deserializer
    leaves after [add_component_info("A", -1, 5)]. *)
Definition ragged_A : DatasetHandler.t :=
  {| DatasetHandler.description_ :=
       Build_DatasetDescription true 2 input [Build_ComponentInfo A (-1) 5];
     DatasetHandler.buffers_ := [Buffer_default] |}.

(** A batch of two scenarios with "A" attached uniformly, three elements per
    scenario at address 1000, and "B" ragged with offset index [0, 0, 3] at
    address 2000: the dataset of the test "Get individual scenario". *)
Definition batch_A_B : DatasetHandler.t :=
  {| DatasetHandler.description_ :=
       Build_DatasetDescription true 2 input
         [Build_ComponentInfo A 3 6; Build_ComponentInfo B (-1) 3];
     DatasetHandler.buffers_ :=
       [Build_Buffer 1000 empty_span;
        Build_Buffer 2000 (mk_span (Some [0; 0; 3]) 3)] |}.

(** The range object of the test "Test range object": the record type
    [AInput] with fields [id], [a0] and [a1], of which the columns [a1] (at
    address 200) and [id] (at address 100) are attached, over three
    elements. *)
Definition AInput_fields : list RangeObject.MetaAttribute :=
  [ {| RangeObject.attribute_name := "id"; RangeObject.ctype := RangeObject.c_int32 |};
    {| RangeObject.attribute_name := "a0"; RangeObject.ctype := RangeObject.c_double |};
    {| RangeObject.attribute_name := "a1"; RangeObject.ctype := RangeObject.c_double |} ].

Definition test_range_object : RangeObject.t :=
  {| RangeObject.fields := AInput_fields;
     RangeObject.size := 3;
     RangeObject.buffers := [200; 100];
     RangeObject.attributes :=
       [ {| RangeObject.attribute_name := "a1"; RangeObject.ctype := RangeObject.c_double |};
         {| RangeObject.attribute_name := "id"; RangeObject.ctype := RangeObject.c_int32 |} ] |}.

(** [id_buffer = {0, 1, 2}] and [a1_buffer = {0.0, 1.0, nan}] *)
Definition test_memory : RangeObject.memory :=
  {[ 100 := [RangeObject.int32_value 0; RangeObject.int32_value 1;
             RangeObject.int32_value 2];
     200 := [RangeObject.double_bits 0;
             RangeObject.double_bits 0x3FF0000000000000;
             RangeObject.double_bits 0x7FF8000000000000] ]}.

(** [new_values{.id = 20, .a0 = -10.0, .a1 = nan}] *)
Definition new_values : RangeObject.record :=
  {[ "id" := RangeObject.int32_value 20;
     "a0" := RangeObject.double_bits 0xC024000000000000;
     "a1" := RangeObject.double_bits 0x7FF8000000000000 ]}.
(** ** Facts about [find_if] *)

Section FindIf.
Context {T : Type} (p : T -> bool).

Lemma find_if_le (l : list T) : (find_if p l <= length l)%nat.
Proof. induction l as [|x l IH]; simpl; [lia|]. destruct (p x); simpl; lia. Qed.

Lemma find_if_hit (l : list T) :
  (find_if p l < length l)%nat ->
  exists x, l !! find_if p l = Some x /\ p x = true.
Proof.
  induction l as [|x l IH]; simpl; [lia|].
  destruct (p x) eqn:Hp; simpl; [eauto|].
  intros H. apply IH. lia.
Qed.

Lemma find_if_before (l : list T) (j : nat) (y : T) :
  (j < find_if p l)%nat -> l !! j = Some y -> p y = false.
Proof.
  revert j. induction l as [|x l IH]; simpl; intros j; [lia|].
  destruct (p x) eqn:Hp; [lia|].
  destruct j as [|j]; simpl.
  - intros _ [= <-]. exact Hp.
  - intros Hj. apply IH. lia.
Qed.

Lemma find_if_none (l : list T) :
  find_if p l = length l <-> forall x, x ∈ l -> p x = false.
Proof.
  induction l as [|x l IH]; simpl.
  - split; [|reflexivity]. intros _ x Hx. inversion Hx.
  - destruct (p x) eqn:Hp.
    + split; [discriminate|]. intros H.
      specialize (H x (list_elem_of_here _ _)). congruence.
    + split.
      * intros [= H] y Hy. apply elem_of_cons in Hy as [->|Hy]; [done|].
        by apply IH.
      * intros H. f_equal. apply IH. intros y Hy. apply H.
        by apply list_elem_of_further.
Qed.

Lemma find_if_app_miss (l1 l2 : list T) :
  (forall x, x ∈ l1 -> p x = false) ->
  find_if p (l1 ++ l2) = (length l1 + find_if p l2)%nat.
Proof.
  induction l1 as [|x l1 IH]; simpl; intros H; [done|].
  rewrite (H x (list_elem_of_here _ _)). f_equal. apply IH.
  intros y Hy. apply H. by apply list_elem_of_further.
Qed.

Lemma find_if_app_hit (l1 l2 : list T) :
  (find_if p l1 < length l1)%nat -> find_if p (l1 ++ l2) = find_if p l1.
Proof.
  induction l1 as [|x l1 IH]; simpl; [lia|].
  destruct (p x); [done|]. intros H. f_equal. apply IH. lia.
Qed.
End FindIf.

(** ** The handler: look-ups *)

Section Lookups.
Import DatasetHandler.

Lemma in_Idxb_true (z : Z) : in_Idx z -> in_Idxb z = true.
Proof.
  unfold in_Idx, in_Idxb. intros [H1 H2].
  apply andb_true_intro. split; apply Z.leb_le; assumption.
Qed.

Lemma Idx_mul_exact (a b : Idx) : in_Idx (a * b) -> Idx_mul a b = Returns (a * b).
Proof. intros H. unfold Idx_mul. by rewrite in_Idxb_true. Qed.

Lemma Idx_add_exact (a b : Idx) : in_Idx (a + b) -> Idx_add a b = Returns (a + b).
Proof. intros H. unfold Idx_add. by rewrite in_Idxb_true. Qed.

Lemma name_is_true (c : string) (x : ComponentInfo) :
  name_is c x = true <-> name (component x) = c.
Proof. unfold name_is. apply String.eqb_eq. Qed.

Lemma name_is_false (c : string) (x : ComponentInfo) :
  name_is c x = false <-> name (component x) <> c.
Proof. unfold name_is. apply String.eqb_neq. Qed.

Lemma not_attached_find_if (h : t) (c : string) :
  ~ attached h c <->
  find_if (name_is c) (component_info (description_ h))
  = length (component_info (description_ h)).
Proof.
  rewrite find_if_none. split.
  - intros H x Hx. apply name_is_false. intros Hn. apply H. by exists x.
  - intros H (x & Hx & Hn). apply H in Hx. apply name_is_false in Hx. done.
Qed.

Lemma attached_or_not (h : t) (c : string) : attached h c \/ ~ attached h c.
Proof.
  destruct (decide (find_if (name_is c) (component_info (description_ h))
                    = length (component_info (description_ h)))) as [E|E].
  - right. by apply not_attached_find_if.
  - left. pose proof (find_if_le (name_is c) (component_info (description_ h))).
    destruct (find_if_hit (name_is c) (component_info (description_ h)))
      as (x & Hx & Hp); [lia|].
    exists x. split; [by eapply list_elem_of_lookup_2|by apply name_is_true].
Qed.

Lemma find_component_absent (h : t) (c : string) (b : bool) :
  ~ attached h c ->
  find_component h c b = if b then Throws DatasetError else Returns (-1).
Proof.
  intros H. apply not_attached_find_if in H. unfold find_component.
  rewrite H, Nat.eqb_refl. reflexivity.
Qed.

Lemma find_component_present (h : t) (c : string) (b : bool) :
  attached h c ->
  exists (i : nat) (x : ComponentInfo),
    find_component h c b = Returns (Z.of_nat i)
    /\ component_info (description_ h) !! i = Some x
    /\ name (component x) = c
    /\ forall (j : nat) (y : ComponentInfo),
        (j < i)%nat -> component_info (description_ h) !! j = Some y ->
        name (component y) <> c.
Proof.
  intros H.
  assert (Hlt : (find_if (name_is c) (component_info (description_ h))
                 < length (component_info (description_ h)))%nat).
  { pose proof (find_if_le (name_is c) (component_info (description_ h))).
    destruct (decide (find_if (name_is c) (component_info (description_ h))
                      = length (component_info (description_ h)))) as [E|E];
      [|lia].
    apply not_attached_find_if in E. done. }
  destruct (find_if_hit _ _ Hlt) as (x & Hx & Hp).
  exists (find_if (name_is c) (component_info (description_ h))), x.
  split; [|split; [exact Hx|split; [by apply name_is_true|]]].
  - unfold find_component.
    destruct (Nat.eqb_spec (find_if (name_is c) (component_info (description_ h)))
                           (length (component_info (description_ h)))); [lia|done].
  - intros j y Hj Hy. apply name_is_false. eapply find_if_before; eauto.
Qed.

Lemma find_component_attached (h : t) (c : string) (b : bool) (i : Idx) :
  find_component h c b = Returns i -> 0 <= i -> attached h c.
Proof.
  intros H Hi.
  destruct (attached_or_not h c) as [Ha|Hn]; [exact Ha|].
  rewrite (find_component_absent _ _ _ Hn) in H. destruct b; [done|].
  injection H as <-. lia.
Qed.
End Lookups.

(** ** The handler: attaching *)

Section Attach.
Import DatasetHandler.

Lemma get_component_known (d : MetaDataset) (c : string) :
  known d c ->
  exists m, get_component d c = Returns m /\ name m = c /\ m ∈ components d.
Proof.
  intros (m0 & Hm0 & Hn). unfold get_component.
  set (p := fun c0 : MetaComponent => String.eqb (name c0) c).
  assert (Hlt : (find_if p (components d) < length (components d))%nat).
  { pose proof (find_if_le p (components d)).
    destruct (decide (find_if p (components d) = length (components d)))
      as [E|E]; [|lia].
    rewrite find_if_none in E. specialize (E m0 Hm0).
    unfold p in E. apply String.eqb_neq in E. done. }
  destruct (find_if_hit _ _ Hlt) as (m & Hm & Hp).
  exists m. rewrite Hm. split; [done|]. split.
  - by apply String.eqb_eq in Hp.
  - by eapply list_elem_of_lookup_2.
Qed.

Lemma get_component_unknown (d : MetaDataset) (c : string) :
  ~ known d c -> get_component d c = Throws out_of_range.
Proof.
  intros H. unfold get_component.
  set (p := fun c0 : MetaComponent => String.eqb (name c0) c).
  assert (E : find_if p (components d) = length (components d)).
  { apply find_if_none. intros m Hm. unfold p. apply String.eqb_neq.
    intros Hn. apply H. by exists m. }
  rewrite E. by rewrite (lookup_ge_None_2 (components d)).
Qed.

(** [add_component_info], step by step. *)
Lemma add_component_info_unfold (c : string) (e tot : Idx) (h : t) :
  add_component_info c e tot h =
  match find_component h c false with
  | Returns found =>
      if 0 <=? found then (Throws DatasetError, h)
      else match get_component (dataset h) c with
           | Returns m =>
               check_uniform_integrity e tot (pushed (Build_ComponentInfo m e tot) h)
           | Throws ex => (Throws ex, h)
           | Undefined => (Undefined, h)
           end
  | Throws ex => (Throws ex, h)
  | Undefined => (Undefined, h)
  end.
Proof.
  unfold add_component_info, bind, const, modify, throw, pushed.
  destruct (find_component h c false) as [found| |]; try reflexivity.
  destruct (0 <=? found); reflexivity.
Qed.

Lemma add_component_info_duplicate (c : string) (e tot : Idx) (h : t) :
  attached h c -> add_component_info c e tot h = (Throws DatasetError, h).
Proof.
  intros Ha. rewrite add_component_info_unfold.
  destruct (find_component_present h c false Ha) as (i & x & -> & _).
  destruct (Z.leb_spec 0 (Z.of_nat i)); [done|lia].
Qed.

Lemma add_component_info_fresh (c : string) (e tot : Idx) (h : t) (m : MetaComponent) :
  ~ attached h c -> get_component (dataset h) c = Returns m ->
  add_component_info c e tot h
  = check_uniform_integrity e tot (pushed (Build_ComponentInfo m e tot) h).
Proof.
  intros Hn Hm. rewrite add_component_info_unfold.
  rewrite (find_component_absent h c false Hn). simpl. by rewrite Hm.
Qed.

Lemma add_component_info_unknown (c : string) (e tot : Idx) (h : t) :
  ~ attached h c -> ~ known (dataset h) c ->
  add_component_info c e tot h = (Throws out_of_range, h).
Proof.
  intros Hn Hk. rewrite add_component_info_unfold.
  rewrite (find_component_absent h c false Hn). simpl.
  by rewrite get_component_unknown.
Qed.

Lemma batch_size_pushed (info : ComponentInfo) (h : t) :
  batch_size (pushed info h) = batch_size h.
Proof. reflexivity. Qed.

Lemma component_info_pushed (info : ComponentInfo) (h : t) :
  component_info (description_ (pushed info h))
  = component_info (description_ h) ++ [info].
Proof. reflexivity. Qed.

Lemma buffers_pushed (info : ComponentInfo) (h : t) :
  buffers_ (pushed info h) = buffers_ h ++ [Buffer_default].
Proof. reflexivity. Qed.

(** The uniform check, case by case. *)
Lemma check_uniform_ragged (e tot : Idx) (h : t) :
  e < 0 -> check_uniform_integrity e tot h = (Returns tt, h).
Proof.
  intros He. unfold check_uniform_integrity.
  destruct (Z.leb_spec 0 e); [lia|done].
Qed.

Lemma check_uniform_uniform (e tot : Idx) (h : t) :
  0 <= e -> in_Idx (e * batch_size h) ->
  check_uniform_integrity e tot h
  = if decide (tot = e * batch_size h) then (Returns tt, h)
    else (Throws DatasetError, h).
Proof.
  intros He Hr. unfold check_uniform_integrity.
  destruct (Z.leb_spec 0 e); [|lia].
  rewrite (Idx_mul_exact _ _ Hr).
  destruct (Z.eqb_spec (e * batch_size h) tot), (decide (tot = e * batch_size h));
    simpl; congruence.
Qed.

Lemma check_uniform_state (e tot : Idx) (h : t) :
  snd (check_uniform_integrity e tot h) = h.
Proof.
  unfold check_uniform_integrity.
  destruct (0 <=? e); [|done].
  destruct (Idx_mul e (batch_size h)); [|done|done].
  by destruct (negb _).
Qed.

Lemma check_non_uniform_state (b : bool) (e tot : Idx) (ip : Indptr) (h : t) :
  snd (check_non_uniform_integrity b e tot ip h) = h.
Proof.
  unfold check_non_uniform_integrity.
  destruct (e <? 0), ip as [arr|]; try done.
  destruct b; [|done].
  destruct (read_indptr arr 0); [|done|done].
  destruct (negb _); [done|].
  destruct (read_indptr arr (batch_size h)); [|done|done].
  by destruct (negb _).
Qed.

(** Attaching keeps the handler well formed, whatever the outcome. *)
Lemma wf_pushed (c : string) (m : MetaComponent) (e tot : Idx) (h : t) :
  wf h -> ~ attached h c -> get_component (dataset h) c = Returns m ->
  name m = c ->
  wf (pushed (Build_ComponentInfo m e tot) h).
Proof.
  intros [Hl Hd Hk] Hn Hm Hname. split.
  - rewrite buffers_pushed, component_info_pushed, !length_app. simpl. lia.
  - rewrite component_info_pushed, fmap_app. simpl.
    apply NoDup_app. split; [exact Hd|]. split; [|apply NoDup_singleton].
    intros s Hs Hs'. apply list_elem_of_singleton in Hs'. subst s.
    apply list_elem_of_fmap in Hs as (x & Hx1 & Hx2).
    apply Hn. exists x. split; [done|]. congruence.
  - intros x Hx. rewrite component_info_pushed in Hx.
    apply elem_of_app in Hx as [Hx|Hx].
    + by apply Hk.
    + apply list_elem_of_singleton in Hx. subst x. simpl.
      change (dataset (pushed _ h)) with (dataset h). by rewrite Hname.
Qed.

Lemma wf_add_component_info (c : string) (e tot : Idx) (h : t) :
  wf h -> wf (snd (add_component_info c e tot h)).
Proof.
  intros Hwf. destruct (attached_or_not h c) as [Ha|Hn].
  - by rewrite add_component_info_duplicate.
  - rewrite add_component_info_unfold, (find_component_absent h c false Hn).
    simpl. destruct (get_component (dataset h) c) as [m| |] eqn:Hm; try done.
    rewrite check_uniform_state. apply (wf_pushed c); try done.
    unfold get_component in Hm.
    destruct (components (dataset h) !! _) as [m'|] eqn:Hl; [|done].
    injection Hm as <-.
    pose proof (lookup_lt_Some _ _ _ Hl) as Hlt.
    destruct (find_if_hit _ _ Hlt) as (m'' & Hm'' & Hp).
    rewrite Hl in Hm''. injection Hm'' as <-. by apply String.eqb_eq in Hp.
Qed.
End Attach.

(** ** Attaching a component: success, failure and what a failure leaves *)

Section AddComponentInfo.
Import DatasetHandler.

(** Two components attached one after the other are found in attach
    order. *)
Lemma find_component_two_appended (h : t) (i1 i2 : ComponentInfo) (h2 : t) :
  ~ attached h (name (component i1)) ->
  ~ attached h (name (component i2)) ->
  name (component i2) <> name (component i1) ->
  component_info (description_ h2) = component_info (description_ h) ++ [i1; i2] ->
  find_component h2 (name (component i1)) false
  = Returns (Z.of_nat (length (component_info (description_ h))))
  /\ find_component h2 (name (component i2)) false
     = Returns (Z.of_nat (length (component_info (description_ h))) + 1).
Proof.
  intros H1 H2 Hne E. unfold find_component. rewrite E.
  rewrite not_attached_find_if, find_if_none in H1, H2.
  rewrite !find_if_app_miss by assumption.
  rewrite length_app. simpl.
  assert (T1 : name_is (name (component i1)) i1 = true) by by apply name_is_true.
  assert (T2 : name_is (name (component i2)) i2 = true) by by apply name_is_true.
  assert (F : name_is (name (component i2)) i1 = false).
  { apply name_is_false. congruence. }
  rewrite T1, F, T2. split.
  - destruct (Nat.eqb_spec (length (component_info (description_ h)) + 0)
                (length (component_info (description_ h)) + 2)); [lia|].
    f_equal. lia.
  - destruct (Nat.eqb_spec (length (component_info (description_ h)) + 1)
                (length (component_info (description_ h)) + 2)); [lia|].
    f_equal. lia.
Qed.

(** C2. For a component name known to the dataset kind and
    [elements_per_scenario >= 0] (the product with the batch size being an
    [Idx]), [add_component_info] succeeds exactly when the component was
    not attached before and
    [total_elements = elements_per_scenario * batch_size]; every failure
    is a [DatasetError]; a success appends the new entry after the
    existing ones, and a second attach of a distinct fresh name then
    succeeds and appends after the first, both being found in attach
    order. *)
Theorem add_component_info_succeeds_iff (h : t) (c : string) (e tot : Idx) :
  known (dataset h) c -> 0 <= e -> in_Idx (e * batch_size h) ->
  let r := add_component_info c e tot h in
  (fst r = Returns tt <-> ~ attached h c /\ tot = e * batch_size h)
  /\ (fst r <> Returns tt -> fst r = Throws DatasetError)
  /\ (fst r = Returns tt ->
      exists m,
        get_component (dataset h) c = Returns m
        /\ component_info (get_description (snd r))
           = component_info (get_description h) ++ [Build_ComponentInfo m e tot]
        /\ forall (c2 : string) (e2 tot2 : Idx),
            c2 <> c -> known (dataset h) c2 -> ~ attached h c2 ->
            0 <= e2 -> in_Idx (e2 * batch_size h) ->
            tot2 = e2 * batch_size h ->
            exists m2,
              let r2 := add_component_info c2 e2 tot2 (snd r) in
              fst r2 = Returns tt
              /\ component_info (get_description (snd r2))
                 = component_info (get_description h)
                   ++ [Build_ComponentInfo m e tot; Build_ComponentInfo m2 e2 tot2]
              /\ find_component (snd r2) c false
                 = Returns (Z.of_nat (length (component_info (get_description h))))
              /\ find_component (snd r2) c2 false
                 = Returns (Z.of_nat (length (component_info (get_description h))) + 1)).
Proof.
  intros Hk He Hr r. subst r. unfold get_description.
  destruct (attached_or_not h c) as [Ha|Hn].
  { rewrite add_component_info_duplicate by assumption. simpl.
    split; [split; [done|tauto]|]. split; done. }
  destruct (get_component_known _ _ Hk) as (m & Hm & Hname & _).
  rewrite (add_component_info_fresh _ _ _ _ _ Hn Hm).
  rewrite check_uniform_uniform by (rewrite ?batch_size_pushed; assumption).
  rewrite batch_size_pushed.
  destruct (decide (tot = e * batch_size h)) as [Et|Et]; simpl.
  2:{ split; [split; [done|tauto]|]. split; done. }
  split; [tauto|]. split; [done|]. intros _.
  exists m. split; [done|]. split; [done|].
  intros c2 e2 tot2 Hc2 Hk2 Hn2 He2 Hr2 Et2.
  destruct (get_component_known _ _ Hk2) as (m2 & Hm2 & Hname2 & _).
  exists m2.
  set (h1 := pushed (Build_ComponentInfo m e tot) h).
  assert (Hn2' : ~ attached h1 c2).
  { intros (x & Hx & Hxn). unfold h1 in Hx. rewrite component_info_pushed in Hx.
    apply elem_of_app in Hx as [Hx|Hx]; [apply Hn2; by exists x|].
    apply list_elem_of_singleton in Hx. subst x. simpl in Hxn. congruence. }
  rewrite (add_component_info_fresh c2 e2 tot2 h1 m2 Hn2' Hm2).
  rewrite check_uniform_uniform by (rewrite ?batch_size_pushed; assumption).
  rewrite batch_size_pushed. change (batch_size h1) with (batch_size h).
  destruct (decide (tot2 = e2 * batch_size h)); [|done]. simpl.
  split; [done|].
  assert (E : component_info
                (description_ (pushed (Build_ComponentInfo m2 e2 tot2) h1))
              = component_info (description_ h)
                ++ [Build_ComponentInfo m e tot; Build_ComponentInfo m2 e2 tot2]).
  { rewrite component_info_pushed. unfold h1. rewrite component_info_pushed.
    by rewrite <- app_assoc. }
  split; [exact E|].
  pose proof (find_component_two_appended h
                (Build_ComponentInfo m e tot) (Build_ComponentInfo m2 e2 tot2)
                (pushed (Build_ComponentInfo m2 e2 tot2) h1)) as T.
  simpl in T. rewrite Hname, Hname2 in T. by apply T.
Qed.

Lemma add_component_info_succeeds_iff_witness :
  known input "A" /\ 0 <= 1 /\ in_Idx (1 * 2)
  /\ (fst (add_component_info "A" 1 2 (batch_input 2)) = Returns tt
      <-> ~ attached (batch_input 2) "A" /\ 2 = 1 * 2).
Proof.
  assert (Hk : known (dataset (batch_input 2)) "A").
  { exists A. split; [apply list_elem_of_here|reflexivity]. }
  assert (He : 0 <= 1) by lia.
  assert (Hr : in_Idx (1 * batch_size (batch_input 2))).
  { split; apply Z.leb_le; reflexivity. }
  split; [exact Hk|]. split; [exact He|]. split; [exact Hr|].
  exact (proj1 (add_component_info_succeeds_iff (batch_input 2) "A" 1 2 Hk He Hr)).
Defined.

(** [set_buffer] changes the handler only when it succeeds. *)
Lemma set_buffer_failure_atomic (c : string) (ip : Indptr) (d : Data) (h : t) :
  fst (set_buffer c ip d h) <> Returns tt -> snd (set_buffer c ip d h) = h.
Proof.
  unfold set_buffer, bind, const.
  destruct (find_component h c true) as [idx| |]; [|done|done].
  destruct (at_index (component_info (description_ h)) idx) as [info| |];
    [|done|done].
  pose proof (check_non_uniform_state false (elements_per_scenario info)
                (total_elements info) ip h) as Hs.
  destruct (check_non_uniform_integrity false _ _ ip h) as [[[]| |] h'];
    simpl in Hs; subst h'; [|done|done].
  destruct (at_index (buffers_ h) idx); [|done|done].
  destruct (make_indptr_span ip h); done.
Qed.

(** A cardinality mismatch is detected after the entry has been pushed:
    the call throws and the handler keeps the new entry. *)
Lemma add_component_info_mismatch_keeps_entry
      (h : t) (c : string) (m : MetaComponent) (e tot : Idx) :
  ~ attached h c -> get_component (dataset h) c = Returns m ->
  0 <= e -> in_Idx (e * batch_size h) -> tot <> e * batch_size h ->
  add_component_info c e tot h
  = (Throws DatasetError, pushed (Build_ComponentInfo m e tot) h)
  /\ n_components (pushed (Build_ComponentInfo m e tot) h) = n_components h + 1.
Proof.
  intros Hn Hm He Hr Hne. split.
  - rewrite (add_component_info_fresh _ _ _ _ _ Hn Hm).
    rewrite check_uniform_uniform by (rewrite ?batch_size_pushed; assumption).
    rewrite batch_size_pushed. by rewrite decide_False.
  - unfold n_components. rewrite buffers_pushed, length_app. simpl. lia.
Qed.

(** C1. On a batch of two scenarios, [add_component_info("A", 1, 3)]
    fails the uniform cardinality check with a [DatasetError], and the
    entry pushed before the check stays behind: the handler now counts one
    component, with an empty buffer, and attaching "A" again with the
    right cardinality is refused as a duplicate.  In the same way
    [add_buffer] with an offset index that starts at 1 fails and leaves the
    component attached. *)
Theorem add_component_info_failure_leaves_entry :
  let h := batch_input 2 in
  let r := add_component_info "A" 1 3 h in
  let r' := add_buffer "A" (-1) 5 (Some [1; 3; 5]) 1000 h in
  fst r = Throws DatasetError
  /\ n_components h = 0
  /\ n_components (snd r) = 1
  /\ component_info (get_description (snd r)) = [Build_ComponentInfo A 1 3]
  /\ buffers_ (snd r) = [Buffer_default]
  /\ fst (add_component_info "A" 1 2 (snd r)) = Throws DatasetError
  /\ fst (add_component_info "A" 1 2 h) = Returns tt
  /\ fst r' = Throws DatasetError
  /\ n_components (snd r') = 1
  /\ component_info (get_description (snd r')) = [Build_ComponentInfo A (-1) 5].
Proof. vm_compute. repeat split; reflexivity. Qed.
End AddComponentInfo.

(** ** Supplying buffers: [add_buffer] and [set_buffer] *)

Section Buffers.
Import DatasetHandler.

(** [add_buffer], step by step. *)
Lemma add_buffer_unfold (c : string) (e tot : Idx) (ip : Indptr) (d : Data) (h : t) :
  add_buffer c e tot ip d h =
  match add_component_info c e tot h with
  | (Returns _, h1) =>
      match check_non_uniform_integrity true e tot ip h1 with
      | (Returns _, h2) => set_back d ip h2
      | (Throws ex, h2) => (Throws ex, h2)
      | (Undefined, h2) => (Undefined, h2)
      end
  | (Throws ex, h1) => (Throws ex, h1)
  | (Undefined, h1) => (Undefined, h1)
  end.
Proof. reflexivity. Qed.

(** The presence check, case by case. *)
Lemma check_non_uniform_ragged_null (b : bool) (e tot : Idx) (h : t) :
  e < 0 -> check_non_uniform_integrity b e tot None h = (Throws DatasetError, h).
Proof.
  intros He. unfold check_non_uniform_integrity.
  destruct (Z.ltb_spec e 0); [done|lia].
Qed.

Lemma check_non_uniform_uniform (b : bool) (e tot : Idx) (ip : Indptr) (h : t) :
  0 <= e ->
  check_non_uniform_integrity b e tot ip h
  = match ip with
    | Some _ => (Throws DatasetError, h)
    | None => (Returns tt, h)
    end.
Proof.
  intros He. unfold check_non_uniform_integrity.
  destruct (Z.ltb_spec e 0); [lia|done].
Qed.

Lemma check_non_uniform_no_content (e tot : Idx) (arr : list Idx) (h : t) :
  e < 0 -> check_non_uniform_integrity false e tot (Some arr) h = (Returns tt, h).
Proof.
  intros He. unfold check_non_uniform_integrity.
  destruct (Z.ltb_spec e 0); [done|lia].
Qed.

Lemma read_indptr_in (arr : list Idx) (i : Idx) :
  0 <= i < Z.of_nat (length arr) ->
  exists x, arr !! Z.to_nat i = Some x /\ read_indptr arr i = Returns x.
Proof.
  intros Hi. unfold read_indptr.
  destruct (Z.ltb_spec i 0); [lia|].
  destruct (lookup_lt_is_Some_2 arr (Z.to_nat i)) as [x Hx]; [lia|].
  exists x. by rewrite Hx.
Qed.

Lemma check_non_uniform_content (e tot : Idx) (arr : list Idx) (h : t) :
  e < 0 -> 0 <= batch_size h < Z.of_nat (length arr) ->
  check_non_uniform_integrity true e tot (Some arr) h
  = if decide (arr !! 0%nat = Some 0
               /\ arr !! Z.to_nat (batch_size h) = Some tot)
    then (Returns tt, h) else (Throws DatasetError, h).
Proof.
  intros He Hb. unfold check_non_uniform_integrity.
  destruct (Z.ltb_spec e 0); [|lia].
  destruct (read_indptr_in arr 0) as (x0 & Hx0 & ->); [lia|].
  destruct (read_indptr_in arr (batch_size h)) as (xb & Hxb & ->); [lia|].
  change (Z.to_nat 0) with 0%nat in Hx0.
  destruct (decide _) as [[H0 Hl]|Hn].
  - assert (E0 : Some x0 = Some 0) by (rewrite <- Hx0; exact H0).
    assert (El : Some xb = Some tot) by (rewrite <- Hxb; exact Hl).
    injection E0 as ->. injection El as ->.
    by rewrite !Z.eqb_refl.
  - destruct (Z.eqb_spec x0 0) as [->|Hne]; simpl; [|done].
    destruct (Z.eqb_spec xb tot) as [->|Hne]; simpl; [|done].
    destruct Hn. split; [exact Hx0|exact Hxb].
Qed.

(** The outcome of the check depends on the handler through its batch
    size only. *)
Lemma check_non_uniform_outcome (b : bool) (e tot : Idx) (ip : Indptr) (h h' : t) :
  batch_size h = batch_size h' ->
  fst (check_non_uniform_integrity b e tot ip h)
  = fst (check_non_uniform_integrity b e tot ip h').
Proof.
  intros E. unfold check_non_uniform_integrity. rewrite E.
  destruct (e <? 0), ip as [arr|]; try done.
  destruct b; [|done].
  destruct (read_indptr arr 0); [|done|done].
  destruct (negb _); [done|].
  destruct (read_indptr arr (batch_size h')); [|done|done].
  by destruct (negb _).
Qed.

Lemma to_size_t_small (n : Z) : 0 <= n < 2 ^ 64 -> to_size_t n = n.
Proof. intros H. unfold to_size_t. by apply Z.mod_small. Qed.

Lemma set_back_pushed (d : Data) (ip : Indptr) (info : ComponentInfo)
      (sp : span_Indptr) (h : t) :
  make_indptr_span ip h = Returns sp ->
  exists h',
    set_back d ip (pushed info h) = (Returns tt, h')
    /\ description_ h' = description_ (pushed info h)
    /\ buffers_ h' = buffers_ h ++ [Build_Buffer d sp].
Proof.
  intros Hsp. unfold set_back. rewrite buffers_pushed, length_app. simpl.
  rewrite Nat.add_1_r.
  change (make_indptr_span ip (pushed info h)) with (make_indptr_span ip h).
  rewrite Hsp. eexists. split; [reflexivity|]. split; [reflexivity|].
  unfold assign_buffer. simpl.
  replace (length (buffers_ h)) with (length (buffers_ h) + 0)%nat at 1 by lia.
  by rewrite insert_app_r.
Qed.
End Buffers.

Section AddBuffer.
Import DatasetHandler.

(** [add_buffer] that fails in [add_component_info] fails in the same
    way. *)
Lemma add_buffer_duplicate (c : string) (e tot : Idx) (ip : Indptr) (d : Data) (h : t) :
  attached h c -> add_buffer c e tot ip d h = (Throws DatasetError, h).
Proof.
  intros Ha. rewrite add_buffer_unfold.
  by rewrite add_component_info_duplicate.
Qed.

(** The sentence about [add_buffer] fails as it is worded: on a batch of
    two scenarios, [add_buffer("A", 1, 2, nullptr, data)] is none of the
    failing cases, and the buffer is stored with an empty offset-index
    span, not one of length three. *)
Lemma add_buffer_uniform_stores_empty_span :
  ~ add_buffer_as_stated (batch_input 2) "A" 1 2 None 1000.
Proof.
  intros (_ & _ & H).
  destruct H as (_ & b & Hb & Hs).
  - intros [He _]. discriminate He.
  - intros [_ Hip]. by apply Hip.
  - vm_compute in Hb. injection Hb as <-. vm_compute in Hs. discriminate Hs.
Qed.

(** C3, amended. For an [add_buffer] call on a component name known to
    the dataset kind: with [elements_per_scenario = -1], a null offset
    index fails with [DatasetError], and so does an offset index (of more
    than [batch_size >= 0] elements) whose first element is not 0 or
    whose element at position [batch_size] is not [total_elements]; with
    [elements_per_scenario >= 0], a non-null offset index fails with
    [DatasetError].  Otherwise, for a component not yet attached, the
    component is appended and its buffer stored: a ragged buffer with an
    offset-index span of length [batch_size + 1], a uniform buffer of the
    right cardinality with an empty offset-index span. *)
Theorem add_buffer_checks (h : t) (c : string) (e tot : Idx) (ip : Indptr) (d : Data) :
  known (dataset h) c ->
  let r := add_buffer c e tot ip d h in
  (e = -1 -> ip = None -> fst r = Throws DatasetError)
  /\ (e = -1 ->
      forall arr, ip = Some arr ->
        0 <= batch_size h < Z.of_nat (length arr) ->
        arr !! 0%nat <> Some 0 \/ arr !! Z.to_nat (batch_size h) <> Some tot ->
        fst r = Throws DatasetError)
  /\ (0 <= e -> in_Idx (e * batch_size h) -> ip <> None ->
      fst r = Throws DatasetError)
  /\ (e = -1 -> ~ attached h c ->
      forall arr, ip = Some arr ->
        0 <= batch_size h < Idx_max ->
        arr !! 0%nat = Some 0 -> arr !! Z.to_nat (batch_size h) = Some tot ->
        exists m,
          get_component (dataset h) c = Returns m
          /\ fst r = Returns tt
          /\ component_info (get_description (snd r))
             = component_info (get_description h) ++ [Build_ComponentInfo m e tot]
          /\ buffers_ (snd r)
             = buffers_ h
               ++ [Build_Buffer d (mk_span (Some arr) (batch_size h + 1))])
  /\ (0 <= e -> ~ attached h c ->
      in_Idx (e * batch_size h) -> tot = e * batch_size h -> ip = None ->
      exists m,
        get_component (dataset h) c = Returns m
        /\ fst r = Returns tt
        /\ component_info (get_description (snd r))
           = component_info (get_description h) ++ [Build_ComponentInfo m e tot]
        /\ buffers_ (snd r) = buffers_ h ++ [Build_Buffer d empty_span]).
Proof.
  intros Hk r. subst r. unfold get_description.
  destruct (get_component_known _ _ Hk) as (m & Hm & Hname & _).
  destruct (attached_or_not h c) as [Ha|Hn].
  { rewrite add_buffer_duplicate by assumption. simpl.
    repeat split; try done. }
  rewrite add_buffer_unfold, (add_component_info_fresh _ _ _ _ _ Hn Hm).
  repeat split.
  - (* ragged, no offset index *)
    intros -> ->. rewrite check_uniform_ragged by lia.
    by rewrite check_non_uniform_ragged_null by lia.
  - (* ragged, malformed offset index *)
    intros -> arr -> Hb Hbad. rewrite check_uniform_ragged by lia.
    rewrite check_non_uniform_content by (rewrite ?batch_size_pushed; lia).
    rewrite batch_size_pushed.
    destruct (decide _) as [[H0 Hl]|_]; [|done].
    destruct Hbad; done.
  - (* uniform, offset index supplied *)
    intros He Hr Hip.
    rewrite check_uniform_uniform by (rewrite ?batch_size_pushed; assumption).
    destruct (decide _); [|done].
    rewrite check_non_uniform_uniform by assumption.
    destruct ip; done.
  - (* ragged, stored *)
    intros -> _ arr -> Hb H0 Hl. rewrite check_uniform_ragged by lia.
    rewrite check_non_uniform_content.
    2: lia.
    2:{ rewrite batch_size_pushed. split; [lia|].
        apply lookup_lt_Some in Hl. lia. }
    rewrite batch_size_pushed, decide_True by done.
    assert (Hsp : make_indptr_span (Some arr) h
                  = Returns (mk_span (Some arr) (batch_size h + 1))).
    { unfold make_indptr_span. rewrite Idx_add_exact.
      - rewrite to_size_t_small; [done|]. unfold Idx_max in Hb. lia.
      - unfold in_Idx, Idx_min, Idx_max in *. lia. }
    destruct (set_back_pushed d _ (Build_ComponentInfo m (-1) tot) _ h Hsp)
      as (h' & -> & Hd & Hbuf).
    exists m. simpl. rewrite Hd, Hbuf. done.
  - (* uniform, stored *)
    intros He _ Hr -> ->.
    rewrite check_uniform_uniform by (rewrite ?batch_size_pushed; assumption).
    rewrite batch_size_pushed, decide_True by done.
    rewrite check_non_uniform_uniform by assumption.
    destruct (set_back_pushed d None
                (Build_ComponentInfo m e (e * batch_size h)) empty_span h
                eq_refl) as (h' & -> & Hd & Hbuf).
    exists m. simpl. rewrite Hd, Hbuf. done.
Qed.

Lemma add_buffer_checks_witness :
  known input "A"
  /\ (0 <= 1 -> in_Idx (1 * 2) -> Some [0; 1; 2] <> None ->
      fst (add_buffer "A" 1 2 (Some [0; 1; 2]) 1000 (batch_input 2))
      = Throws DatasetError).
Proof.
  assert (Hk : known (dataset (batch_input 2)) "A").
  { exists A. split; [apply list_elem_of_here|reflexivity]. }
  split; [exact Hk|].
  exact (proj1 (proj2 (proj2
           (add_buffer_checks (batch_input 2) "A" 1 2 (Some [0; 1; 2]) 1000 Hk)))).
Defined.
End AddBuffer.

Section SetBuffer.
Import DatasetHandler.

(** In a well-formed handler a component is found at the position it is
    stored at. *)
Lemma find_component_at (h : t) (i : nat) (info : ComponentInfo) (b : bool) :
  wf h -> component_info (description_ h) !! i = Some info ->
  find_component h (name (component info)) b = Returns (Z.of_nat i).
Proof.
  intros Hwf Hi.
  assert (Ha : attached h (name (component info))).
  { exists info. split; [by eapply list_elem_of_lookup_2|done]. }
  destruct (find_component_present h _ b Ha) as (j & x & -> & Hj & Hn & _).
  f_equal. f_equal.
  eapply (NoDup_lookup _ j i (name (component info)) (wf_nodup h Hwf)).
  - by rewrite list_lookup_fmap, Hj; simpl; rewrite Hn.
  - by rewrite list_lookup_fmap, Hi.
Qed.

Lemma at_index_of_nat {T : Type} (v : list T) (i : nat) (x : T) :
  v !! i = Some x -> at_index v (Z.of_nat i) = Returns x.
Proof.
  intros H. unfold at_index.
  destruct (Z.ltb_spec (Z.of_nat i) 0); [lia|].
  by rewrite Nat2Z.id, H.
Qed.

Lemma at_index_outside {T : Type} (v : list T) (i : Idx) :
  ~ (0 <= i < Z.of_nat (length v)) -> at_index v i = Undefined.
Proof.
  intros H. unfold at_index.
  destruct (Z.ltb_spec i 0); [done|].
  rewrite lookup_ge_None_2; [done|]. lia.
Qed.

(** [set_buffer] on an attached component, step by step. *)
Lemma set_buffer_attached (h : t) (i : nat) (info : ComponentInfo)
      (ip : Indptr) (d : Data) :
  wf h -> component_info (description_ h) !! i = Some info ->
  set_buffer (name (component info)) ip d h =
  match check_non_uniform_integrity false
          (elements_per_scenario info) (total_elements info) ip h with
  | (Returns _, _) =>
      match make_indptr_span ip h with
      | Returns sp => (Returns tt, assign_buffer i (Build_Buffer d sp) h)
      | Throws e => (Throws e, h)
      | Undefined => (Undefined, h)
      end
  | (Throws e, _) => (Throws e, h)
  | (Undefined, _) => (Undefined, h)
  end.
Proof.
  intros Hwf Hi. unfold set_buffer, bind, const.
  rewrite (find_component_at h i info true Hwf Hi).
  rewrite (at_index_of_nat _ _ _ Hi).
  pose proof (check_non_uniform_state false (elements_per_scenario info)
                (total_elements info) ip h) as Hs.
  destruct (check_non_uniform_integrity false _ _ ip h) as [[[]| |] h'];
    simpl in Hs; subst h'; [|done|done].
  destruct (lookup_lt_is_Some_2 (buffers_ h) i) as [b0 Hb0].
  { rewrite (wf_length h Hwf). by eapply lookup_lt_Some. }
  rewrite (at_index_of_nat _ _ _ Hb0), Nat2Z.id. reflexivity.
Qed.

(** C5. For an attached component, [set_buffer] checks only whether an
    offset index is present, against the [elements_per_scenario] fixed
    when the component was attached: a ragged component without offset
    index and a uniform component with one fail with [DatasetError]
    (leaving the handler as it was); a ragged component with an offset
    index succeeds whatever the index holds, and the buffer is stored
    with a span of [batch_size + 1] elements; a uniform component without
    offset index succeeds with an empty span. *)
Theorem set_buffer_checks_presence_only
        (h : t) (i : nat) (info : ComponentInfo) (d : Data) :
  wf h -> component_info (get_description h) !! i = Some info ->
  let c := name (component info) in
  (elements_per_scenario info < 0 ->
   set_buffer c None d h = (Throws DatasetError, h))
  /\ (0 <= elements_per_scenario info ->
      forall arr, set_buffer c (Some arr) d h = (Throws DatasetError, h))
  /\ (elements_per_scenario info < 0 -> in_Idx (batch_size h + 1) ->
      forall arr,
        set_buffer c (Some arr) d h
        = (Returns tt,
           assign_buffer i
             (Build_Buffer d (mk_span (Some arr) (to_size_t (batch_size h + 1)))) h))
  /\ (0 <= elements_per_scenario info ->
      set_buffer c None d h
      = (Returns tt, assign_buffer i (Build_Buffer d empty_span) h)).
Proof.
  intros Hwf Hi c. subst c. unfold get_description in Hi. repeat split.
  - intros He. rewrite (set_buffer_attached h i info None d Hwf Hi).
    by rewrite check_non_uniform_ragged_null.
  - intros He arr. rewrite (set_buffer_attached h i info _ d Hwf Hi).
    by rewrite check_non_uniform_uniform.
  - intros He Hr arr. rewrite (set_buffer_attached h i info _ d Hwf Hi).
    rewrite check_non_uniform_no_content by assumption.
    unfold make_indptr_span. by rewrite Idx_add_exact.
  - intros He. rewrite (set_buffer_attached h i info None d Hwf Hi).
    by rewrite check_non_uniform_uniform.
Qed.

(** C9, amended. [find_component] returns the attach-order index of the
    named component when it is attached; when it is not, it returns [-1]
    without [throw_not_found] and fails with [DatasetError] with it, and
    [get_component_info] by name fails with [DatasetError].
    [get_component_info] by index performs no check: it returns the entry
    stored at an index in range and never throws; outside the range the
    access is undefined. *)
Theorem find_component_result (h : t) (c : string) :
  (attached h c ->
   exists (i : nat) (info : ComponentInfo),
     component_info (get_description h) !! i = Some info
     /\ name (component info) = c
     /\ (forall j y, (j < i)%nat ->
           component_info (get_description h) !! j = Some y ->
           name (component y) <> c)
     /\ (forall b, find_component h c b = Returns (Z.of_nat i))
     /\ get_component_info h c = Returns info)
  /\ (~ attached h c ->
      find_component h c false = Returns (-1)
      /\ find_component h c true = Throws DatasetError
      /\ get_component_info h c = Throws DatasetError)
  /\ (forall (i : nat) (info : ComponentInfo),
        component_info (get_description h) !! i = Some info ->
        get_component_info_idx h (Z.of_nat i) = Returns info)
  /\ (forall i : Idx,
        ~ (0 <= i < Z.of_nat (length (component_info (get_description h)))) ->
        get_component_info_idx h i = Undefined)
  /\ (forall i : Idx, get_component_info_idx h i <> Throws DatasetError).
Proof.
  unfold get_description. repeat split.
  - intros Ha.
    destruct (find_component_present h c true Ha) as (i & x & Hf & Hi & Hn & Hmin).
    exists i, x. repeat split; try done.
    + intros b. destruct (find_component_present h c b Ha)
        as (i' & x' & Hf' & _). unfold find_component in *.
      destruct (_ =? _)%nat; [by destruct b|]. congruence.
    + unfold get_component_info. rewrite Hf. by apply at_index_of_nat.
  - by rewrite find_component_absent.
  - by rewrite find_component_absent.
  - unfold get_component_info. by rewrite find_component_absent.
  - intros i info Hi. by apply at_index_of_nat.
  - intros i Hi. by apply at_index_outside.
  - intros i. unfold get_component_info_idx, at_index.
    destruct (i <? 0); [done|]. by destruct (_ !! _).
Qed.

(** The sentence about absent components fails as it is worded: with
    nothing attached, [get_component_info(0)] reads past the end of an
    empty vector; no [DatasetError] is thrown. *)
Lemma get_component_info_by_index_unchecked :
  ~ absent_lookup_as_stated (batch_input 2).
Proof.
  intros [_ H]. specialize (H 0).
  assert (Hout : ~ (0 <= 0 < n_components (batch_input 2))).
  { vm_compute. intros [_ Hlt]. discriminate Hlt. }
  apply H in Hout. vm_compute in Hout. discriminate Hout.
Qed.

(** C10. Every negative [elements_per_scenario], not only [-1], is
    handled as ragged: the uniform cardinality check is skipped, so
    [add_component_info] of a fresh known component succeeds for any
    [total_elements]; the offset-index check is the one made for [-1];
    [add_buffer] and [set_buffer] fail with [DatasetError] without an
    offset index, and with one [add_buffer] ends as it does for [-1] and
    stores the same buffers. *)
Theorem negative_elements_per_scenario_is_ragged
        (h : t) (c : string) (e tot : Idx) (ip : Indptr) (d : Data) :
  e < 0 ->
  check_uniform_integrity e tot h = (Returns tt, h)
  /\ (known (dataset h) c -> ~ attached h c ->
      fst (add_component_info c e tot h) = Returns tt)
  /\ (forall b,
        check_non_uniform_integrity b e tot ip h
        = check_non_uniform_integrity b (-1) tot ip h)
  /\ (known (dataset h) c ->
      fst (add_buffer c e tot None d h) = Throws DatasetError)
  /\ (fst (add_buffer c e tot ip d h) = fst (add_buffer c (-1) tot ip d h)
      /\ buffers_ (snd (add_buffer c e tot ip d h))
         = buffers_ (snd (add_buffer c (-1) tot ip d h)))
  /\ (forall (i : nat) (info : ComponentInfo),
        wf h -> component_info (get_description h) !! i = Some info ->
        elements_per_scenario info = e ->
        set_buffer (name (component info)) None d h = (Throws DatasetError, h)).
Proof.
  intros He.
  assert (Hchk : forall b h0,
             check_non_uniform_integrity b e tot ip h0
             = check_non_uniform_integrity b (-1) tot ip h0).
  { intros b h0. unfold check_non_uniform_integrity.
    destruct (Z.ltb_spec e 0); [done|lia]. }
  split; [by apply check_uniform_ragged|].
  split.
  { intros Hk Hn. destruct (get_component_known _ _ Hk) as (m & Hm & _).
    rewrite (add_component_info_fresh _ _ _ _ _ Hn Hm).
    by rewrite check_uniform_ragged. }
  split; [intros b; apply Hchk|].
  split.
  { intros Hk. destruct (attached_or_not h c) as [Ha|Hn].
    - by rewrite add_buffer_duplicate.
    - destruct (get_component_known _ _ Hk) as (m & Hm & _).
      rewrite add_buffer_unfold, (add_component_info_fresh _ _ _ _ _ Hn Hm).
      rewrite check_uniform_ragged by assumption.
      by rewrite check_non_uniform_ragged_null. }
  split.
  { rewrite !add_buffer_unfold, !add_component_info_unfold.
    destruct (find_component h c false) as [found| |]; [|done|done].
    destruct (0 <=? found); [done|].
    destruct (get_component (dataset h) c) as [m| |]; [|done|done].
    rewrite !check_uniform_ragged by lia. rewrite Hchk.
    set (h1 := pushed (Build_ComponentInfo m e tot) h).
    set (h2 := pushed (Build_ComponentInfo m (-1) tot) h).
    assert (Hc : forall b,
               fst (check_non_uniform_integrity b (-1) tot ip h1)
               = fst (check_non_uniform_integrity b (-1) tot ip h2)).
    { intros b. by apply check_non_uniform_outcome. }
    pose proof (check_non_uniform_state true (-1) tot ip h1) as S1.
    pose proof (check_non_uniform_state true (-1) tot ip h2) as S2.
    specialize (Hc true).
    destruct (check_non_uniform_integrity true (-1) tot ip h1) as [o1 h1'].
    destruct (check_non_uniform_integrity true (-1) tot ip h2) as [o2 h2'].
    simpl in *. subst h1' h2' o2.
    destruct o1 as [[]| |]; [|done|done].
    unfold set_back, h1, h2. rewrite !buffers_pushed, !length_app. simpl.
    rewrite Nat.add_1_r.
    change (make_indptr_span ip (pushed _ h)) with (make_indptr_span ip h).
    destruct (make_indptr_span ip h); done. }
  intros i info Hwf Hi Hei.
  rewrite (set_buffer_attached h i info None d Hwf Hi).
  rewrite check_non_uniform_ragged_null; [done|lia].
Qed.

Lemma negative_elements_per_scenario_is_ragged_witness :
  -2 < 0
  /\ check_uniform_integrity (-2) 7 (batch_input 2) = (Returns tt, batch_input 2)
  /\ (known input "A" -> ~ attached (batch_input 2) "A" ->
      fst (add_component_info "A" (-2) 7 (batch_input 2)) = Returns tt).
Proof.
  assert (He : -2 < 0) by lia.
  split; [exact He|].
  pose proof (negative_elements_per_scenario_is_ragged
                (batch_input 2) "A" (-2) 7 None 1000 He) as (H1 & H2 & _).
  split; [exact H1|exact H2].
Defined.
End SetBuffer.

Section Witnesses.
Import DatasetHandler.

Lemma wf_ragged_A : wf ragged_A.
Proof.
  split.
  - reflexivity.
  - apply NoDup_singleton.
  - intros x Hx. apply list_elem_of_singleton in Hx. subst x. reflexivity.
Defined.

Lemma wf_batch_A_B : wf batch_A_B.
Proof.
  split.
  - reflexivity.
  - simpl. apply NoDup_cons_2; [|apply NoDup_singleton].
    intros H. apply list_elem_of_singleton in H. discriminate H.
  - intros x Hx. apply elem_of_cons in Hx as [->|Hx]; [reflexivity|].
    apply list_elem_of_singleton in Hx. subst x. reflexivity.
Defined.

Lemma set_buffer_checks_presence_only_witness :
  wf ragged_A
  /\ component_info (get_description ragged_A) !! 0%nat
     = Some (Build_ComponentInfo A (-1) 5)
  /\ set_buffer "A" (Some [1; 3; 7]) 1000 ragged_A
     = (Returns tt,
        assign_buffer 0
          (Build_Buffer 1000 (mk_span (Some [1; 3; 7]) (to_size_t (2 + 1))))
          ragged_A).
Proof.
  split; [exact wf_ragged_A|]. split; [reflexivity|].
  refine (proj1 (proj2 (proj2
            (set_buffer_checks_presence_only ragged_A 0
               (Build_ComponentInfo A (-1) 5) 1000 wf_ragged_A eq_refl)))
            _ _ [1; 3; 7]).
  - simpl. lia.
  - split; apply Z.leb_le; reflexivity.
Defined.
End Witnesses.

(** ** Well-formedness is an invariant of the handler *)

Section Invariant.
Import DatasetHandler.

Lemma wf_make (meta : list MetaDataset) (b : bool) (n : Idx) (d : string) (h : t) :
  make meta b n d = Returns h -> wf h.
Proof.
  unfold make. destruct (get_dataset meta d) as [md| |]; [|done|done].
  destruct (negb b && negb (n =? 1)); [done|].
  intros [= <-]. split; simpl.
  - reflexivity.
  - apply NoDup_nil_2.
  - intros x Hx. inversion Hx.
Qed.

Lemma make_batch_input (n : Idx) :
  make test_meta_data true n "input" = Returns (batch_input n).
Proof. reflexivity. Qed.

Lemma make_single_needs_batch_size_one (meta : list MetaDataset) (n : Idx) (d : string) :
  n <> 1 -> forall h, make meta false n d <> Returns h.
Proof.
  intros Hn h. unfold make. destruct (get_dataset meta d); [|done|done].
  simpl. destruct (Z.eqb_spec n 1); [done|]. simpl. done.
Qed.

Lemma wf_assign_buffer (i : nat) (b : Buffer) (h : t) :
  wf h -> wf (assign_buffer i b h).
Proof.
  intros [Hl Hd Hk]. split; simpl; [|done|done].
  by rewrite length_insert.
Qed.

Lemma wf_set_back (d : Data) (ip : Indptr) (h : t) :
  wf h -> wf (snd (set_back d ip h)).
Proof.
  intros Hwf. unfold set_back.
  destruct (length (buffers_ h)); [done|].
  destruct (make_indptr_span ip h); simpl; [|done|done].
  by apply wf_assign_buffer.
Qed.

Lemma wf_add_buffer (c : string) (e tot : Idx) (ip : Indptr) (d : Data) (h : t) :
  wf h -> wf (snd (add_buffer c e tot ip d h)).
Proof.
  intros Hwf. rewrite add_buffer_unfold.
  pose proof (wf_add_component_info c e tot h Hwf) as H1.
  destruct (add_component_info c e tot h) as [[[]| |] h1]; simpl in H1;
    [|done|done].
  pose proof (check_non_uniform_state true e tot ip h1) as Hs.
  destruct (check_non_uniform_integrity true e tot ip h1) as [[[]| |] h2];
    simpl in Hs; subst h2; [|done|done].
  by apply wf_set_back.
Qed.

Lemma wf_set_buffer (c : string) (ip : Indptr) (d : Data) (h : t) :
  wf h -> wf (snd (set_buffer c ip d h)).
Proof.
  intros Hwf. unfold set_buffer, bind, const.
  destruct (find_component h c true) as [idx| |]; [|done|done].
  destruct (at_index (component_info (description_ h)) idx) as [info| |];
    [|done|done].
  pose proof (check_non_uniform_state false (elements_per_scenario info)
                (total_elements info) ip h) as Hs.
  destruct (check_non_uniform_integrity false _ _ ip h) as [[[]| |] h'];
    simpl in Hs; subst h'; [|done|done].
  destruct (at_index (buffers_ h) idx); [|done|done].
  destruct (make_indptr_span ip h); simpl; [|done|done].
  by apply wf_assign_buffer.
Qed.
End Invariant.

(** ** Span queries *)

Section Spans.
Import DatasetHandler.

(** The query on an attached component, step by step. *)
Lemma get_buffer_span_attached (h : t) (i : nat) (info : ComponentInfo)
      (buffer : Buffer) (s : Idx) :
  wf h ->
  component_info (description_ h) !! i = Some info ->
  buffers_ h !! i = Some buffer ->
  get_buffer_span h (name (component info)) s =
  if s =? invalid_index then
    Returns {| start := data buffer; size := total_elements info |}
  else if (s <? 0) || (batch_size h <=? s) then Throws DatasetError
  else if elements_per_scenario info <? 0 then
    match read_span (indptr buffer) s, read_span (indptr buffer) (s + 1) with
    | Returns first, Returns last =>
        Returns {| start := data buffer + first; size := last - first |}
    | Throws e, _ => Throws e
    | Returns _, Throws e => Throws e
    | _, _ => Undefined
    end
  else
    Returns {| start := data buffer + s * elements_per_scenario info;
               size := (s + 1) * elements_per_scenario info
                       - s * elements_per_scenario info |}.
Proof.
  intros Hwf Hi Hb. unfold get_buffer_span.
  rewrite (find_component_at h i info true Hwf Hi).
  unfold get_component_info_idx, get_buffer_idx.
  by rewrite (at_index_of_nat _ _ _ Hi), (at_index_of_nat _ _ _ Hb).
Qed.

Lemma in_scenario_range (h : t) (s : Idx) :
  0 <= s < batch_size h ->
  (s =? invalid_index) = false /\ (s <? 0) || (batch_size h <=? s) = false.
Proof.
  intros Hs. unfold invalid_index. split.
  - apply Z.eqb_neq. lia.
  - apply orb_false_intro; [apply Z.ltb_ge|apply Z.leb_gt]; lia.
Qed.

Lemma get_buffer_span_uniform (h : t) (i : nat) (info : ComponentInfo)
      (buffer : Buffer) (s : Idx) :
  wf h ->
  component_info (description_ h) !! i = Some info ->
  buffers_ h !! i = Some buffer ->
  0 <= s < batch_size h ->
  0 <= elements_per_scenario info ->
  get_buffer_span h (name (component info)) s
  = Returns {| start := data buffer + s * elements_per_scenario info;
               size := elements_per_scenario info |}.
Proof.
  intros Hwf Hi Hb Hs He.
  rewrite (get_buffer_span_attached h i info buffer s Hwf Hi Hb).
  destruct (in_scenario_range h s Hs) as [-> ->].
  destruct (Z.ltb_spec (elements_per_scenario info) 0); [lia|].
  do 2 f_equal. lia.
Qed.

Lemma read_span_in (idx : list Idx) (n : Z) (k : Idx) (x : Idx) :
  0 <= k < n -> idx !! Z.to_nat k = Some x ->
  read_span (mk_span (Some idx) n) k = Returns x.
Proof.
  intros Hk Hx. unfold read_span, read_indptr. simpl.
  destruct (Z.ltb_spec k 0); [lia|].
  destruct (Z.leb_spec n k); [lia|]. simpl.
  by rewrite Hx.
Qed.

Lemma get_buffer_span_ragged (h : t) (i : nat) (info : ComponentInfo)
      (buffer : Buffer) (s : Idx) (idx : list Idx) (first last : Idx) :
  wf h ->
  component_info (description_ h) !! i = Some info ->
  buffers_ h !! i = Some buffer ->
  0 <= s < batch_size h ->
  elements_per_scenario info < 0 ->
  indptr buffer = mk_span (Some idx) (batch_size h + 1) ->
  idx !! Z.to_nat s = Some first ->
  idx !! Z.to_nat (s + 1) = Some last ->
  get_buffer_span h (name (component info)) s
  = Returns {| start := data buffer + first; size := last - first |}.
Proof.
  intros Hwf Hi Hb Hs He Hsp Hf Hl.
  rewrite (get_buffer_span_attached h i info buffer s Hwf Hi Hb).
  destruct (in_scenario_range h s Hs) as [-> ->].
  destruct (Z.ltb_spec (elements_per_scenario info) 0); [|lia].
  rewrite Hsp.
  rewrite (read_span_in idx _ s first) by (done || lia).
  by rewrite (read_span_in idx _ (s + 1) last) by (done || lia).
Qed.

(** C4. For an attached uniform component with
    [elements_per_scenario = e] and a scenario [s] of the batch,
    [get_buffer_span(s)] is the slice of the component's data that starts
    [s * e] elements in and holds [e] elements; for an attached ragged
    component with offset index [idx], it is the slice that starts
    [idx[s]] elements in and holds [idx[s+1] - idx[s]] elements. *)
Theorem get_buffer_span_slice (h : t) (i : nat) (info : ComponentInfo)
        (buffer : Buffer) (s : Idx) :
  wf h ->
  component_info (get_description h) !! i = Some info ->
  buffers_ h !! i = Some buffer ->
  0 <= s < batch_size h ->
  (0 <= elements_per_scenario info ->
   get_buffer_span h (name (component info)) s
   = Returns {| start := data buffer + s * elements_per_scenario info;
                size := elements_per_scenario info |})
  /\ (elements_per_scenario info < 0 ->
      forall (idx : list Idx) (first last : Idx),
        indptr buffer = mk_span (Some idx) (batch_size h + 1) ->
        idx !! Z.to_nat s = Some first ->
        idx !! Z.to_nat (s + 1) = Some last ->
        get_buffer_span h (name (component info)) s
        = Returns {| start := data buffer + first; size := last - first |}).
Proof.
  intros Hwf Hi Hb Hs. split.
  - intros He. by apply (get_buffer_span_uniform h i).
  - intros He idx first last Hsp Hf Hl.
    by apply (get_buffer_span_ragged h i info buffer s idx).
Qed.

Lemma get_buffer_span_slice_witness :
  wf batch_A_B
  /\ 0 <= 1 < batch_size batch_A_B
  /\ get_buffer_span batch_A_B "A" 1 = Returns {| start := 1000 + 1 * 3; size := 3 |}
  /\ get_buffer_span batch_A_B "B" 1 = Returns {| start := 2000 + 0; size := 3 - 0 |}.
Proof.
  assert (Hs : 0 <= 1 < batch_size batch_A_B) by (unfold batch_size; simpl; lia).
  split; [exact wf_batch_A_B|]. split; [exact Hs|]. split.
  - refine (proj1 (get_buffer_span_slice batch_A_B 0 (Build_ComponentInfo A 3 6)
                     (Build_Buffer 1000 empty_span) 1
                     wf_batch_A_B eq_refl eq_refl Hs) _).
    simpl. lia.
  - refine (proj2 (get_buffer_span_slice batch_A_B 1 (Build_ComponentInfo B (-1) 3)
                     (Build_Buffer 2000 (mk_span (Some [0; 0; 3]) 3)) 1
                     wf_batch_A_B eq_refl eq_refl Hs) _ [0; 0; 3] 0 3
                     eq_refl eq_refl eq_refl).
    simpl. lia.
Defined.
End Spans.

Section AllScenarios.
Import DatasetHandler.

(** The loop returns when every scenario it visits has a span, and then
    it lists these spans in order. *)
Lemma all_scenarios_from_defined (h : t) (c : string) (n : nat) :
  forall s0 : Idx,
    (forall k, (k < n)%nat ->
       exists sp, get_buffer_span h c (s0 + Z.of_nat k) = Returns sp) ->
    exists spans,
      all_scenarios_from h c n s0 = Returns spans
      /\ length spans = n
      /\ (forall k, (k < n)%nat ->
            exists sp, spans !! k = Some sp
                       /\ get_buffer_span h c (s0 + Z.of_nat k) = Returns sp)
      /\ Returns <$> spans
         = (fun k : nat => get_buffer_span h c (s0 + Z.of_nat k)) <$> seq 0 n.
Proof.
  induction n as [|n IH]; intros s0 Hdef.
  - exists []. simpl. repeat split; try done. intros k Hk. lia.
  - destruct (Hdef 0%nat) as [sp0 Hsp0]; [lia|].
    rewrite Z.add_0_r in Hsp0.
    destruct (IH (s0 + 1)) as (rest & Hrest & Hlen & Hnth & Hmap).
    { intros k Hk. destruct (Hdef (S k)) as [sp Hsp]; [lia|].
      exists sp. rewrite <- Hsp. f_equal. lia. }
    exists (sp0 :: rest). cbn [all_scenarios_from]. rewrite Hsp0, Hrest.
    split; [done|]. split; [by simpl; rewrite Hlen|]. split.
    + intros [|k] Hk.
      * exists sp0. by rewrite Z.add_0_r.
      * destruct (Hnth k) as (sp & Hk1 & Hk2); [lia|].
        exists sp. split; [done|]. rewrite <- Hk2. f_equal. lia.
    + change (seq 0 (S n)) with (0%nat :: seq 1 n).
      rewrite !fmap_cons, Z.add_0_r, Hsp0. f_equal.
      rewrite Hmap, <- fmap_S_seq, <- list_fmap_compose.
      apply list_fmap_ext. intros _ k _. simpl. f_equal. lia.
Qed.

(** C6. For an attached component, uniform or ragged (its offset index
    then holding the [batch_size + 1] elements of the span),
    [get_buffer_span_all_scenarios] returns a sequence of [batch_size]
    spans whose [s]-th element is the span [get_buffer_span(s)] returns,
    start and length; it is the sequence obtained by calling the
    single-scenario accessor for every index. *)
Theorem get_buffer_span_all_scenarios_each
        (h : t) (i : nat) (info : ComponentInfo) (buffer : Buffer) :
  wf h ->
  component_info (get_description h) !! i = Some info ->
  buffers_ h !! i = Some buffer ->
  0 <= batch_size h ->
  (elements_per_scenario info < 0 ->
   exists idx, indptr buffer = mk_span (Some idx) (batch_size h + 1)
               /\ batch_size h + 1 <= Z.of_nat (length idx)) ->
  exists spans,
    get_buffer_span_all_scenarios h (name (component info)) = Returns spans
    /\ Z.of_nat (length spans) = batch_size h
    /\ (forall s, 0 <= s < batch_size h ->
          exists sp,
            spans !! Z.to_nat s = Some sp
            /\ get_buffer_span h (name (component info)) s = Returns sp)
    /\ Returns <$> spans = spans_of_every_scenario h (name (component info)).
Proof.
  intros Hwf Hi Hb Hbs Hidx. unfold get_description in Hi.
  destruct (all_scenarios_from_defined h (name (component info))
              (Z.to_nat (batch_size h)) 0) as (spans & Hr & Hlen & Hnth & Hmap).
  { intros k Hk. rewrite Z.add_0_l.
    assert (Hs : 0 <= Z.of_nat k < batch_size h) by lia.
    destruct (Z.lt_ge_cases (elements_per_scenario info) 0) as [He|He].
    - destruct (Hidx He) as (idx & Hsp & Hlen).
      destruct (lookup_lt_is_Some_2 idx (Z.to_nat (Z.of_nat k))) as [f Hf]; [lia|].
      destruct (lookup_lt_is_Some_2 idx (Z.to_nat (Z.of_nat k + 1))) as [l Hl]; [lia|].
      eexists. by apply (get_buffer_span_ragged h i info buffer _ idx f l).
    - eexists. by apply (get_buffer_span_uniform h i info buffer). }
  exists spans. split; [exact Hr|]. split; [lia|]. split.
  - intros s Hs. destruct (Hnth (Z.to_nat s)) as (sp & H1 & H2); [lia|].
    exists sp. split; [done|]. rewrite <- H2. f_equal. lia.
  - rewrite Hmap. unfold spans_of_every_scenario. reflexivity.
Qed.

Lemma get_buffer_span_all_scenarios_each_witness :
  wf batch_A_B
  /\ 0 <= batch_size batch_A_B
  /\ exists spans,
      get_buffer_span_all_scenarios batch_A_B "B" = Returns spans
      /\ Z.of_nat (length spans) = batch_size batch_A_B
      /\ (forall s, 0 <= s < batch_size batch_A_B ->
            exists sp, spans !! Z.to_nat s = Some sp
                       /\ get_buffer_span batch_A_B "B" s = Returns sp)
      /\ Returns <$> spans = spans_of_every_scenario batch_A_B "B".
Proof.
  assert (Hbs : 0 <= batch_size batch_A_B) by (unfold batch_size; simpl; lia).
  split; [exact wf_batch_A_B|]. split; [exact Hbs|].
  refine (get_buffer_span_all_scenarios_each batch_A_B 1
            (Build_ComponentInfo B (-1) 3)
            (Build_Buffer 2000 (mk_span (Some [0; 0; 3]) 3))
            wf_batch_A_B eq_refl eq_refl Hbs _).
  intros _. exists [0; 0; 3]. split; [reflexivity|].
  unfold batch_size. simpl. lia.
Defined.
End AllScenarios.

(** ** The scenario slicer *)

Section IndividualScenario.
Import DatasetHandler.

Lemma attached_pushed (info : ComponentInfo) (h : t) (c : string) :
  attached (pushed info h) c <-> attached h c \/ name (component info) = c.
Proof.
  unfold attached. rewrite component_info_pushed. split.
  - intros (x & Hx & Hn). apply elem_of_app in Hx as [Hx|Hx].
    + left. by exists x.
    + apply list_elem_of_singleton in Hx. subst x. by right.
  - intros [(x & Hx & Hn)|Hn].
    + exists x. split; [|done]. apply elem_of_app. by left.
    + exists info. split; [|done]. apply elem_of_app. right.
      by apply list_elem_of_singleton.
Qed.

(** Attaching a uniform buffer to a handler that does not have the
    component yet. *)
Lemma add_buffer_uniform_fresh (h : t) (c : string) (m : MetaComponent)
      (e tot : Idx) (d : Data) :
  ~ attached h c -> get_component (dataset h) c = Returns m ->
  0 <= e -> in_Idx (e * batch_size h) -> tot = e * batch_size h ->
  exists h',
    add_buffer c e tot None d h = (Returns tt, h')
    /\ description_ h' = description_ (pushed (Build_ComponentInfo m e tot) h)
    /\ buffers_ h' = buffers_ h ++ [Build_Buffer d empty_span].
Proof.
  intros Hn Hm He Hr ->.
  rewrite add_buffer_unfold, (add_component_info_fresh _ _ _ _ _ Hn Hm).
  rewrite check_uniform_uniform by (rewrite ?batch_size_pushed; assumption).
  rewrite batch_size_pushed, decide_True by done.
  rewrite check_non_uniform_uniform by assumption.
  by apply set_back_pushed.
Qed.

Lemma add_sliced_buffers_run (h : t) (s : Idx) (infos : list ComponentInfo) :
  forall acc : t,
    batch_size acc = 1 -> dataset acc = dataset h ->
    NoDup ((fun x => name (component x)) <$> infos) ->
    (forall x, x ∈ infos -> ~ attached acc (name (component x))) ->
    (forall x, x ∈ infos ->
       get_component (dataset h) (name (component x)) = Returns (component x)) ->
    (forall x, x ∈ infos ->
       exists sp, get_buffer_span h (name (component x)) s = Returns sp
                  /\ 0 <= size sp <= Idx_max) ->
    exists (sps : list span_Data) (acc' : t),
      add_sliced_buffers h s infos acc = (Returns tt, acc')
      /\ Forall2 (fun x sp => get_buffer_span h (name (component x)) s = Returns sp)
                 infos sps
      /\ component_info (description_ acc')
         = component_info (description_ acc) ++ zip_with sliced_info infos sps
      /\ buffers_ acc' = buffers_ acc ++ (sliced_buffer <$> sps)
      /\ batch_size acc' = 1
      /\ is_batch acc' = is_batch acc
      /\ dataset acc' = dataset acc.
Proof.
  induction infos as [|x rest IH]; intros acc Hbs Hds Hnd Hfresh Hknown Hspan.
  - exists [], acc. simpl. rewrite !app_nil_r. by repeat split.
  - destruct (Hspan x) as (sp & Hsp & Hsize); [apply list_elem_of_here|].
    apply NoDup_cons in Hnd as [Hx Hnd].
    destruct (add_buffer_uniform_fresh acc (name (component x)) (component x)
                (size sp) (size sp) (start sp)) as (acc1 & Hadd & Hd1 & Hb1).
    { apply Hfresh, list_elem_of_here. }
    { rewrite Hds. apply Hknown, list_elem_of_here. }
    { lia. }
    { rewrite Hbs. unfold in_Idx, Idx_min, Idx_max in *. lia. }
    { rewrite Hbs. lia. }
    destruct (IH acc1) as (sps & acc' & Hrun & Hall & Hci & Hbuf & Hbs' & Hib & Hds').
    { unfold batch_size. by rewrite Hd1. }
    { unfold dataset. by rewrite Hd1. }
    { exact Hnd. }
    { intros y Hy Ha.
      assert (Ha' : attached (pushed (Build_ComponentInfo (component x) (size sp) (size sp)) acc)
                      (name (component y))).
      { destruct Ha as (z & Hz & Hzn). exists z. split; [|done].
        by rewrite <- Hd1. }
      apply attached_pushed in Ha' as [Ha'|Ha'].
      - eapply Hfresh; [|exact Ha']. by apply list_elem_of_further.
      - simpl in Ha'. apply Hx. rewrite Ha'.
        apply list_elem_of_fmap. by exists y. }
    { intros y Hy. apply Hknown. by apply list_elem_of_further. }
    { intros y Hy. apply Hspan. by apply list_elem_of_further. }
    exists (sp :: sps), acc'.
    split.
    { cbn [add_sliced_buffers]. unfold bind, const. rewrite Hsp, Hadd. exact Hrun. }
    split; [by apply Forall2_cons|].
    split.
    { rewrite Hci, Hd1, component_info_pushed, <- app_assoc. reflexivity. }
    split.
    { rewrite Hbuf, Hb1, <- app_assoc. reflexivity. }
    split; [exact Hbs'|].
    split.
    { rewrite Hib. unfold is_batch. by rewrite Hd1. }
    rewrite Hds'. unfold dataset. by rewrite Hd1.
Qed.

Lemma names_zip_with_sliced (infos : list ComponentInfo) (sps : list span_Data) :
  length infos = length sps ->
  (fun x => name (component x)) <$> zip_with sliced_info infos sps
  = (fun x => name (component x)) <$> infos.
Proof.
  revert sps. induction infos as [|x infos IH]; intros [|sp sps] Hl;
    simpl in *; try done.
  f_equal. apply IH. lia.
Qed.

Lemma span_eta (sp : span_Data) : {| start := start sp; size := size sp |} = sp.
Proof. by destruct sp. Qed.

(** C7. For a well-formed handler and a scenario [s] of the batch at which
    every attached component has a slice of a size that is a non-negative
    [Idx], [get_individual_scenario(s)] returns a non-batch handler of batch
    size one with the same number of components, attached in the same
    order; for every attached component its span, whole or at scenario 0,
    is the span [get_buffer_span(s)] of the source, start and length, so
    the data are shared and not copied, and its [elements_per_scenario] and
    [total_elements] are both the length of that span. *)
Theorem get_individual_scenario_slices (h : t) (s : Idx) :
  wf h ->
  0 <= s < batch_size h ->
  (forall info, info ∈ component_info (get_description h) ->
     exists sp, get_buffer_span h (name (component info)) s = Returns sp
                /\ 0 <= size sp <= Idx_max) ->
  exists h',
    get_individual_scenario h s = Returns h'
    /\ is_batch h' = false
    /\ batch_size h' = 1
    /\ n_components h' = n_components h
    /\ forall (i : nat) (info : ComponentInfo),
        component_info (get_description h) !! i = Some info ->
        exists sp,
          get_buffer_span h (name (component info)) s = Returns sp
          /\ get_buffer_span h' (name (component info)) invalid_index = Returns sp
          /\ get_buffer_span h' (name (component info)) 0 = Returns sp
          /\ find_component h' (name (component info)) false = Returns (Z.of_nat i)
          /\ get_component_info h' (name (component info))
             = Returns (Build_ComponentInfo (component info) (size sp) (size sp)).
Proof.
  intros Hwf Hs Hspan. unfold get_description in *.
  set (result := {| description_ := Build_DatasetDescription false 1 (dataset h) [];
                    buffers_ := [] |}).
  destruct (add_sliced_buffers_run h s (component_info (description_ h)) result)
    as (sps & h' & Hrun & Hall & Hci & Hbuf & Hbs & Hib & Hds); try done.
  { exact (wf_nodup h Hwf). }
  { intros x _ (y & Hy & _). inversion Hy. }
  { exact (wf_known h Hwf). }
  simpl in Hci, Hbuf.
  pose proof (Forall2_length _ _ _ Hall) as Hlen.
  assert (Hwf' : wf h').
  { split.
    - rewrite Hbuf, Hci, length_fmap, length_zip_with. lia.
    - rewrite Hci, names_zip_with_sliced by exact Hlen. exact (wf_nodup h Hwf).
    - intros x Hx. rewrite Hci in Hx.
      apply list_elem_of_lookup in Hx as [i Hx].
      apply lookup_zip_with_Some in Hx as (info & sp & -> & Hinfo & _).
      rewrite Hds. simpl. apply (wf_known h Hwf).
      by eapply list_elem_of_lookup_2. }
  exists h'. unfold get_individual_scenario. fold result. rewrite Hrun.
  split; [done|]. split; [by rewrite Hib|]. split; [exact Hbs|].
  split.
  { unfold n_components. rewrite Hbuf, length_fmap, <- Hlen.
    by rewrite (wf_length h Hwf). }
  intros i info Hi.
  destruct (Forall2_lookup_l _ _ _ _ _ Hall Hi) as (sp & Hsp & Hget).
  destruct (Hspan info) as (sp' & Hget' & Hsize); [by eapply list_elem_of_lookup_2|].
  assert (sp' = sp) by congruence. subst sp'.
  assert (Hi' : component_info (description_ h') !! i = Some (sliced_info info sp)).
  { rewrite Hci. apply lookup_zip_with_Some. by exists info, sp. }
  assert (Hb' : buffers_ h' !! i = Some (sliced_buffer sp)).
  { by rewrite Hbuf, list_lookup_fmap, Hsp. }
  exists sp. split; [exact Hget|].
  change (name (component info)) with (name (component (sliced_info info sp))).
  split.
  { rewrite (get_buffer_span_attached h' i _ _ invalid_index Hwf' Hi' Hb').
    simpl. by rewrite span_eta. }
  split.
  { rewrite (get_buffer_span_uniform h' i _ _ 0 Hwf' Hi' Hb'); simpl; try lia.
    destruct sp as [st sz]. simpl. do 2 f_equal. lia. }
  split; [by apply find_component_at|].
  unfold get_component_info.
  rewrite (find_component_at h' i _ true Hwf' Hi').
  by apply at_index_of_nat.
Qed.

Lemma get_individual_scenario_slices_witness :
  wf batch_A_B
  /\ 0 <= 1 < batch_size batch_A_B
  /\ exists h',
      get_individual_scenario batch_A_B 1 = Returns h'
      /\ is_batch h' = false
      /\ batch_size h' = 1
      /\ n_components h' = n_components batch_A_B.
Proof.
  assert (Hs : 0 <= 1 < batch_size batch_A_B) by (unfold batch_size; simpl; lia).
  split; [exact wf_batch_A_B|]. split; [exact Hs|].
  destruct (get_individual_scenario_slices batch_A_B 1 wf_batch_A_B Hs)
    as (h' & H1 & H2 & H3 & H4 & _).
  - intros info Hinfo.
    apply elem_of_cons in Hinfo as [->|Hinfo].
    + exists {| start := 1003; size := 3 |}. split; [reflexivity|].
      unfold Idx_max. simpl. lia.
    + apply list_elem_of_singleton in Hinfo. subst info.
      exists {| start := 2000; size := 3 |}. split; [reflexivity|].
      unfold Idx_max. simpl. lia.
  - exists h'. repeat split; assumption.
Defined.
End IndividualScenario.

(** ** The columnar overlay: writing a record and reading it back *)

Section Overlay.
Import RangeObject.

Lemma scatter_spec (v : record) (i : nat) (cols : list (MetaAttribute * Data)) :
  forall mem : memory,
    NoDup (snd <$> cols) ->
    (forall a p, (a, p) ∈ cols ->
       is_Some (v !! attribute_name a)
       /\ exists arr, mem !! p = Some arr /\ (i < length arr)%nat) ->
    exists mem' : memory,
      scatter v i cols mem = Returns mem'
      /\ (forall a p, (a, p) ∈ cols ->
            exists arr', mem' !! p = Some arr' /\ arr' !! i = v !! attribute_name a)
      /\ (forall p, p ∉ snd <$> cols -> mem' !! p = mem !! p)
      /\ (forall p arr, mem !! p = Some arr ->
            exists arr', mem' !! p = Some arr'
                         /\ length arr' = length arr
                         /\ forall j, j <> i -> arr' !! j = arr !! j).
Proof.
  induction cols as [|[a p] rest IH]; intros mem Hnd Hcols.
  - exists mem. simpl. repeat split; try done.
    + intros a p Hin. inversion Hin.
    + intros p arr Hp. by exists arr.
  - rewrite fmap_cons in Hnd. simpl in Hnd. apply NoDup_cons in Hnd as [Hp Hnd].
    destruct (Hcols a p) as ([x Hx] & arr & Harr & Hi); [apply list_elem_of_here|].
    set (mem1 := <[p := <[i := x]> arr]> mem).
    destruct (IH mem1 Hnd) as (mem' & Hrun & Hwritten & Hother & Hrest).
    { intros a' p' Hin.
      destruct (Hcols a' p') as (Hv & arr' & Harr' & Hi');
        [by apply list_elem_of_further|].
      split; [exact Hv|].
      assert (p' <> p).
      { intros ->. apply Hp. apply list_elem_of_fmap. by exists (a', p). }
      exists arr'. unfold mem1. by rewrite lookup_insert_ne. }
    exists mem'. split.
    { cbn [scatter]. rewrite Harr, Hx.
      destruct (Nat.ltb_spec i (length arr)); [exact Hrun|lia]. }
    split.
    { intros a' p' Hin. apply elem_of_cons in Hin as [[= -> ->]|Hin].
      - exists (<[i := x]> arr). split.
        + rewrite (Hother p Hp). unfold mem1. by rewrite lookup_insert_eq.
        + rewrite Hx. by apply list_lookup_insert_eq.
      - by apply Hwritten. }
    split.
    { intros p' Hp'. rewrite fmap_cons in Hp'. simpl in Hp'.
      apply not_elem_of_cons in Hp' as [Hne Hp'].
      rewrite (Hother p' Hp'). unfold mem1. by rewrite lookup_insert_ne. }
    intros q arr0 Hq.
    destruct (decide (q = p)) as [->|Hne].
    + destruct (Hrest p (<[i := x]> arr)) as (arr' & Hq' & Hlen & Hsame).
      { unfold mem1. by rewrite lookup_insert_eq. }
      assert (E : Some arr0 = Some arr) by (rewrite <- Hq; exact Harr).
      injection E as ->.
      exists arr'. split; [exact Hq'|]. split.
      * by rewrite Hlen, length_insert.
      * intros j Hj. rewrite (Hsame j Hj). by rewrite list_lookup_insert_ne.
    + apply Hrest. unfold mem1. by rewrite lookup_insert_ne.
Qed.

Lemma gather_spec (v : record) (mem : memory) (i : nat)
      (cols : list (MetaAttribute * Data)) :
  forall acc : record,
    (forall a p, (a, p) ∈ cols ->
       is_Some (v !! attribute_name a)
       /\ exists arr, mem !! p = Some arr /\ arr !! i = v !! attribute_name a) ->
    exists rec : record,
      gather mem i cols acc = Returns rec
      /\ (forall n, n ∈ (attribute_name ∘ fst) <$> cols -> rec !! n = v !! n)
      /\ (forall n, n ∉ (attribute_name ∘ fst) <$> cols -> rec !! n = acc !! n).
Proof.
  induction cols as [|[a p] rest IH]; intros acc Hcols.
  - exists acc. simpl. repeat split; try done. intros n Hn. inversion Hn.
  - destruct (Hcols a p) as ([x Hx] & arr & Harr & Hi); [apply list_elem_of_here|].
    destruct (IH (<[attribute_name a := x]> acc)) as (rec & Hrun & Hin & Hout).
    { intros a' p' Hin. apply Hcols. by apply list_elem_of_further. }
    exists rec. split.
    { cbn [gather]. rewrite Harr, Hi, Hx. exact Hrun. }
    split.
    + intros n Hn. rewrite fmap_cons in Hn. simpl in Hn.
      destruct (decide (n ∈ (attribute_name ∘ fst) <$> rest)) as [Hr|Hr].
      * by apply Hin.
      * apply elem_of_cons in Hn as [->|Hn]; [|done].
        rewrite (Hout _ Hr), Hx. by rewrite lookup_insert_eq.
    + intros n Hn. rewrite fmap_cons in Hn. simpl in Hn.
      apply not_elem_of_cons in Hn as [Hne Hn].
      rewrite (Hout n Hn). by rewrite lookup_insert_ne.
Qed.

Lemma default_record_lookup (fs : list MetaAttribute) (a : MetaAttribute) :
  NoDup (attribute_name <$> fs) -> a ∈ fs ->
  default_record fs !! attribute_name a = Some (na_value (ctype a)).
Proof.
  intros Hnd Ha. unfold default_record. apply elem_of_list_to_map_1.
  - by rewrite <- list_fmap_compose.
  - apply list_elem_of_fmap. by exists a.
Qed.

(** The columns [get] and [set] go through are the descriptors and the
    arrays the range object was constructed from, position by position. *)
Lemma columns_of_constructor (r : RangeObject.t) :
  length (buffers r) = length (attributes r) ->
  fst <$> columns r = attributes r
  /\ snd <$> columns r = buffers r
  /\ (forall (k : nat) a p,
        attributes r !! k = Some a -> buffers r !! k = Some p ->
        (a, p) ∈ columns r).
Proof.
  intros Hlen. unfold columns. split; [|split].
  - apply fst_zip. lia.
  - apply snd_zip. lia.
  - intros k a p Ha Hp. apply (list_elem_of_lookup_2 _ k).
    apply lookup_zip_with_Some. by exists a, p.
Qed.

(** C8. For a range object constructed from as many arrays as attribute
    descriptors, the arrays being distinct and of at least [size]
    elements, an index [i] in [[0, size)] and a record value [v] that has
    the attached fields: assigning [v] at index [i] succeeds and stores,
    for every position [k], the field of [v] named by the [k]-th
    descriptor at index [i] of the [k]-th array; reading index [i]
    afterwards yields a record in which every attribute among the
    descriptors is the field of [v] and every attribute of the record type
    that is not among them is not-a-value; the assignment leaves every
    array that is not one of the arrays of the range object as it was, and
    these arrays unchanged at every other index. *)
Theorem range_object_write_then_read
        (r : RangeObject.t) (i : Idx) (v : record) (mem : memory) :
  0 <= i < RangeObject.size r ->
  length (buffers r) = length (attributes r) ->
  NoDup (buffers r) ->
  NoDup (attribute_name <$> fields r) ->
  (forall a, a ∈ attributes r -> is_Some (v !! attribute_name a)) ->
  (forall p, p ∈ buffers r ->
     exists arr, mem !! p = Some arr
                 /\ RangeObject.size r <= Z.of_nat (length arr)) ->
  exists mem' : memory,
    RangeObject.set r i v mem = Returns mem'
    /\ (forall (k : nat) a p,
          attributes r !! k = Some a -> buffers r !! k = Some p ->
          exists arr', mem' !! p = Some arr'
                       /\ arr' !! Z.to_nat i = v !! attribute_name a)
    /\ (exists rec : record,
          RangeObject.get r i mem' = Returns rec
          /\ (forall a, a ∈ attributes r ->
                rec !! attribute_name a = v !! attribute_name a)
          /\ (forall a, a ∈ fields r ->
                attribute_name a ∉ attribute_name <$> attributes r ->
                rec !! attribute_name a = Some (na_value (ctype a))))
    /\ (forall p, p ∉ buffers r -> mem' !! p = mem !! p)
    /\ (forall p arr, mem !! p = Some arr ->
          exists arr', mem' !! p = Some arr'
                       /\ length arr' = length arr
                       /\ forall j, j <> Z.to_nat i -> arr' !! j = arr !! j).
Proof.
  intros Hi Hlen Hnd Hfields Hv Hmem.
  destruct (columns_of_constructor r Hlen) as (Hfst & Hsnd & Hkth).
  assert (Hattr : forall a p, (a, p) ∈ columns r -> a ∈ attributes r).
  { intros a p Hin. rewrite <- Hfst. apply list_elem_of_fmap. by exists (a, p). }
  assert (Hbuf : forall a p, (a, p) ∈ columns r -> p ∈ buffers r).
  { intros a p Hin. rewrite <- Hsnd. apply list_elem_of_fmap. by exists (a, p). }
  assert (Hnames : (attribute_name ∘ fst) <$> columns r
                   = attribute_name <$> attributes r).
  { by rewrite list_fmap_compose, Hfst. }
  assert (Hrange : (i <? 0) || (RangeObject.size r <=? i) = false).
  { apply orb_false_intro; [apply Z.ltb_ge|apply Z.leb_gt]; lia. }
  destruct (scatter_spec v (Z.to_nat i) (columns r) mem)
    as (mem' & Hrun & Hwritten & Hother & Hrest).
  { by rewrite Hsnd. }
  { intros a p Hin. split; [by eapply Hv, Hattr|].
    destruct (Hmem p (Hbuf a p Hin)) as (arr & Harr & Hl).
    exists arr. split; [exact Harr|lia]. }
  exists mem'. unfold RangeObject.set, RangeObject.get. rewrite Hrange.
  split; [exact Hrun|].
  split; [intros k a p Ha Hp; by eapply Hwritten, Hkth|].
  split; [|split; [by rewrite <- Hsnd|exact Hrest]].
  destruct (gather_spec v mem' (Z.to_nat i) (columns r) (default_record (fields r)))
    as (rec & Hget & Hin & Hout).
  { intros a p Hap. split; [by eapply Hv, Hattr|]. by apply Hwritten. }
  exists rec. split; [exact Hget|]. split.
  - intros a Ha. apply Hin. rewrite Hnames. apply list_elem_of_fmap. by exists a.
  - intros a Ha Hna. rewrite Hout by by rewrite Hnames.
    by apply default_record_lookup.
Qed.

Lemma range_object_write_then_read_witness :
  0 <= 1 < RangeObject.size test_range_object
  /\ exists mem' : memory,
      RangeObject.set test_range_object 1 new_values test_memory = Returns mem'
      /\ (forall (k : nat) a p,
            attributes test_range_object !! k = Some a ->
            buffers test_range_object !! k = Some p ->
            exists arr', mem' !! p = Some arr'
                         /\ arr' !! Z.to_nat 1 = new_values !! attribute_name a)
      /\ (exists rec : record,
            RangeObject.get test_range_object 1 mem' = Returns rec
            /\ (forall a, a ∈ attributes test_range_object ->
                  rec !! attribute_name a = new_values !! attribute_name a)
            /\ (forall a, a ∈ fields test_range_object ->
                  attribute_name a ∉ attribute_name <$> attributes test_range_object ->
                  rec !! attribute_name a = Some (na_value (ctype a))))
      /\ (forall p, p ∉ buffers test_range_object -> mem' !! p = test_memory !! p)
      /\ (forall p arr, test_memory !! p = Some arr ->
            exists arr', mem' !! p = Some arr'
                         /\ length arr' = length arr
                         /\ forall j, j <> Z.to_nat 1 -> arr' !! j = arr !! j).
Proof.
  assert (Hi : 0 <= 1 < RangeObject.size test_range_object) by (simpl; lia).
  split; [exact Hi|].
  apply (range_object_write_then_read test_range_object 1 new_values test_memory Hi).
  - reflexivity.
  - simpl. apply NoDup_cons_2; [|apply NoDup_singleton].
    intros H. apply list_elem_of_singleton in H. discriminate H.
  - simpl. repeat (apply NoDup_cons_2; [intros H; repeat (apply elem_of_cons in H as [H|H]; [discriminate H|]); inversion H|]).
    apply NoDup_nil_2.
  - intros a Hin. simpl in Hin.
    apply elem_of_cons in Hin as [->|Hin]; [by eexists|].
    apply list_elem_of_singleton in Hin as ->. by eexists.
  - intros p Hin. simpl in Hin.
    apply elem_of_cons in Hin as [->|Hin].
    { eexists. split; [reflexivity|simpl; lia]. }
    apply list_elem_of_singleton in Hin as ->.
    eexists. split; [reflexivity|simpl; lia].
Defined.
End Overlay.

(** ** What a call can do to a handler *)

Section Shapes.
Import DatasetHandler.

Lemma get_component_name (d : MetaDataset) (c : string) (m : MetaComponent) :
  get_component d c = Returns m -> name m = c.
Proof.
  unfold get_component.
  destruct (components d !! _) as [m'|] eqn:Hl; [|done].
  intros [= <-].
  pose proof (lookup_lt_Some _ _ _ Hl) as Hlt.
  destruct (find_if_hit _ _ Hlt) as (m'' & Hm'' & Hp).
  rewrite Hl in Hm''. injection Hm'' as <-. by apply String.eqb_eq in Hp.
Qed.

(** A handler after [add_component_info]: untouched, or with one entry
    pushed for a component that was not attached. *)
Lemma add_component_info_shape (c : string) (e tot : Idx) (h : t) :
  snd (add_component_info c e tot h) = h
  \/ exists m, ~ attached h c
               /\ get_component (dataset h) c = Returns m
               /\ add_component_info c e tot h
                  = (fst (check_uniform_integrity e tot
                            (pushed (Build_ComponentInfo m e tot) h)),
                     pushed (Build_ComponentInfo m e tot) h).
Proof.
  destruct (attached_or_not h c) as [Ha|Hn].
  - left. by rewrite add_component_info_duplicate.
  - rewrite add_component_info_unfold, (find_component_absent h c false Hn).
    simpl. destruct (get_component (dataset h) c) as [m| |] eqn:Hm;
      [|by left|by left].
    right. exists m. split; [done|]. split; [done|].
    rewrite <- (check_uniform_state e tot (pushed _ h)) at 3.
    by destruct (check_uniform_integrity e tot _).
Qed.

(** A successful [add_component_info]. *)
Lemma add_component_info_returns (c : string) (e tot : Idx) (h h' : t) :
  add_component_info c e tot h = (Returns tt, h') ->
  exists m, ~ attached h c
            /\ get_component (dataset h) c = Returns m
            /\ name m = c
            /\ h' = pushed (Build_ComponentInfo m e tot) h
            /\ (0 <= e -> tot = e * batch_size h).
Proof.
  intros Hr. destruct (attached_or_not h c) as [Ha|Hn].
  { by rewrite add_component_info_duplicate in Hr. }
  rewrite add_component_info_unfold, (find_component_absent h c false Hn) in Hr.
  simpl in Hr. destruct (get_component (dataset h) c) as [m| |] eqn:Hm;
    [|done|done].
  pose proof (check_uniform_state e tot (pushed (Build_ComponentInfo m e tot) h)) as S.
  rewrite Hr in S. simpl in S. subst h'.
  exists m. split; [done|]. split; [done|].
  split; [by eapply get_component_name|]. split; [done|].
  intros He. unfold check_uniform_integrity in Hr.
  destruct (Z.leb_spec 0 e); [|lia].
  change (batch_size (pushed _ h)) with (batch_size h) in Hr.
  unfold Idx_mul in Hr. destruct (in_Idxb (e * batch_size h)); [|done].
  destruct (Z.eqb_spec (e * batch_size h) tot); [done|]. simpl in Hr. done.
Qed.

Lemma description_assign_buffer (i : nat) (b : Buffer) (h : t) :
  description_ (assign_buffer i b h) = description_ h.
Proof. reflexivity. Qed.

(** A handler after [add_buffer]: as [add_component_info] leaves it, then
    possibly with the last buffer assigned. *)
Lemma add_buffer_shape (c : string) (e tot : Idx) (ip : Indptr) (d : Data) (h : t) :
  (fst (add_buffer c e tot ip d h) <> Returns tt
   /\ snd (add_buffer c e tot ip d h) = snd (add_component_info c e tot h))
  \/ exists m sp,
       add_component_info c e tot h
       = (Returns tt, pushed (Build_ComponentInfo m e tot) h)
       /\ make_indptr_span ip h = Returns sp
       /\ fst (check_non_uniform_integrity true e tot ip
                 (pushed (Build_ComponentInfo m e tot) h)) = Returns tt
       /\ add_buffer c e tot ip d h
          = (Returns tt,
             assign_buffer (length (buffers_ h)) (Build_Buffer d sp)
               (pushed (Build_ComponentInfo m e tot) h)).
Proof.
  rewrite add_buffer_unfold.
  destruct (add_component_info c e tot h) as [[[]| |] h1] eqn:Hadd;
    [|by left|by left].
  destruct (add_component_info_returns _ _ _ _ _ Hadd) as (m & _ & _ & _ & -> & _).
  pose proof (check_non_uniform_state true e tot ip
                (pushed (Build_ComponentInfo m e tot) h)) as Hs.
  destruct (check_non_uniform_integrity true e tot ip _) as [[[]| |] h2] eqn:Hc;
    simpl in Hs; subst h2; [|by left|by left].
  unfold set_back. rewrite buffers_pushed, length_app. simpl.
  rewrite Nat.add_1_r.
  change (make_indptr_span ip (pushed _ h)) with (make_indptr_span ip h).
  destruct (make_indptr_span ip h) as [sp| |] eqn:Hsp; [|by left|by left].
  right. exists m, sp. by rewrite Hc.
Qed.

(** A handler after [set_buffer]: untouched, or with the buffer of the
    named component assigned. *)
Lemma set_buffer_shape (c : string) (ip : Indptr) (d : Data) (h : t) :
  (fst (set_buffer c ip d h) <> Returns tt /\ snd (set_buffer c ip d h) = h)
  \/ exists (i : nat) (info : ComponentInfo) (b0 : Buffer) (sp : span_Indptr),
       find_component h c true = Returns (Z.of_nat i)
       /\ component_info (description_ h) !! i = Some info
       /\ buffers_ h !! i = Some b0
       /\ fst (check_non_uniform_integrity false (elements_per_scenario info)
                 (total_elements info) ip h) = Returns tt
       /\ make_indptr_span ip h = Returns sp
       /\ set_buffer c ip d h
          = (Returns tt, assign_buffer i (Build_Buffer d sp) h).
Proof.
  unfold set_buffer, bind, const.
  destruct (find_component h c true) as [idx| |] eqn:Hf; [|by left|by left].
  unfold at_index.
  destruct (Z.ltb_spec idx 0); [by left|].
  destruct (component_info (description_ h) !! Z.to_nat idx) as [info|] eqn:Hi;
    [|by left].
  pose proof (check_non_uniform_state false (elements_per_scenario info)
                (total_elements info) ip h) as Hs.
  destruct (check_non_uniform_integrity false _ _ ip h) as [[[]| |] h'] eqn:Hc;
    simpl in Hs; subst h'; [|by left|by left].
  destruct (buffers_ h !! Z.to_nat idx) as [b0|] eqn:Hb; [|by left].
  destruct (make_indptr_span ip h) as [sp| |] eqn:Hsp; [|by left|by left].
  right. exists (Z.to_nat idx), info, b0, sp.
  rewrite Z2Nat.id by lia. by rewrite Hc.
Qed.
End Shapes.

(** ** Invariants of the handler *)

Section Invariants.
Import DatasetHandler.

(** Whatever a call does, it leaves the batch flag, the batch size and the
    dataset alone, and adds at most one entry, with its buffer, at the
    end. *)
Lemma run_call_extends (k : call) (h : t) :
  is_batch (snd (run_call k h)) = is_batch h
  /\ batch_size (snd (run_call k h)) = batch_size h
  /\ dataset (snd (run_call k h)) = dataset h
  /\ exists extra : list ComponentInfo,
      component_info (description_ (snd (run_call k h)))
      = component_info (description_ h) ++ extra
      /\ length (buffers_ (snd (run_call k h)))
         = (length (buffers_ h) + length extra)%nat
      /\ (length extra <= 1)%nat.
Proof.
  assert (Hsame : forall h', h' = h ->
            is_batch h' = is_batch h /\ batch_size h' = batch_size h
            /\ dataset h' = dataset h
            /\ exists extra : list ComponentInfo,
                component_info (description_ h')
                = component_info (description_ h) ++ extra
                /\ length (buffers_ h') = (length (buffers_ h) + length extra)%nat
                /\ (length extra <= 1)%nat).
  { intros h' ->. repeat split. exists []. rewrite app_nil_r. simpl.
    repeat split; lia. }
  assert (Hpush : forall info h',
            description_ h' = description_ (pushed info h) ->
            length (buffers_ h') = S (length (buffers_ h)) ->
            is_batch h' = is_batch h /\ batch_size h' = batch_size h
            /\ dataset h' = dataset h
            /\ exists extra : list ComponentInfo,
                component_info (description_ h')
                = component_info (description_ h) ++ extra
                /\ length (buffers_ h') = (length (buffers_ h) + length extra)%nat
                /\ (length extra <= 1)%nat).
  { intros info h' Hd Hl. unfold is_batch, batch_size, dataset. rewrite Hd.
    repeat split. exists [info]. rewrite component_info_pushed. simpl.
    repeat split; lia. }
  destruct k as [c e tot|c e tot ip d|c ip d]; simpl.
  - destruct (add_component_info_shape c e tot h) as [Hs|(m & _ & _ & E)].
    + by apply Hsame.
    + rewrite E. simpl. apply (Hpush (Build_ComponentInfo m e tot)); [done|].
      rewrite buffers_pushed, length_app. simpl. lia.
  - destruct (add_buffer_shape c e tot ip d h) as [[_ Hs]|(m & sp & _ & _ & _ & E)].
    + rewrite Hs.
      destruct (add_component_info_shape c e tot h) as [Hs'|(m & _ & _ & E)].
      * by apply Hsame.
      * rewrite E. simpl. apply (Hpush (Build_ComponentInfo m e tot)); [done|].
        rewrite buffers_pushed, length_app. simpl. lia.
    + rewrite E. simpl. apply (Hpush (Build_ComponentInfo m e tot)); [done|].
      simpl. rewrite length_insert, length_app. simpl. lia.
  - destruct (set_buffer_shape c ip d h) as [[_ Hs]|(i & info & b0 & sp & _ & _ & _ & _ & _ & E)].
    + by apply Hsame.
    + rewrite E. simpl. repeat split. exists []. rewrite app_nil_r. simpl.
      rewrite length_insert. repeat split; lia.
Qed.

Lemma wf_run_call (k : call) (h : t) : wf h -> wf (snd (run_call k h)).
Proof.
  intros Hwf. destruct k; simpl.
  - by apply wf_add_component_info.
  - by apply wf_add_buffer.
  - by apply wf_set_buffer.
Qed.

(** X1. Every handler a program can reach, through calls that return or
    throw, has one buffer per attached component (so that [n_components]
    is the number of entries of the description), no component name
    attached twice, every attached component taken from its dataset kind,
    and batch size one unless it is a batch. *)
Theorem reachable_invariant (meta : list MetaDataset) (h : t) :
  reachable meta h ->
  wf h
  /\ (is_batch h = false -> batch_size h = 1)
  /\ n_components h = Z.of_nat (length (component_info (get_description h))).
Proof.
  intros Hr.
  assert (H : wf h /\ (is_batch h = false -> batch_size h = 1)).
  { induction Hr as [b n d h Hm|h k Hr [IHwf IHb] Hdef].
    - split; [by eapply wf_make|].
      unfold make in Hm. destruct (get_dataset meta d); [|done|done].
      destruct b; simpl in *.
      + injection Hm as <-. done.
      + destruct (Z.eqb_spec n 1) as [->|]; simpl in Hm; [|done].
        by injection Hm as <-.
    - split; [by apply wf_run_call|].
      destruct (run_call_extends k h) as (Hib & Hbs & _).
      rewrite Hib, Hbs. exact IHb. }
  destruct H as [Hwf Hb]. split; [exact Hwf|]. split; [exact Hb|].
  unfold n_components, get_description. by rewrite (wf_length h Hwf).
Qed.

Lemma reachable_invariant_witness :
  reachable test_meta_data (snd (add_component_info "A" 1 3 (batch_input 2)))
  /\ wf (snd (add_component_info "A" 1 3 (batch_input 2)))
  /\ n_components (snd (add_component_info "A" 1 3 (batch_input 2))) = 1.
Proof.
  assert (Hr : reachable test_meta_data
                 (snd (add_component_info "A" 1 3 (batch_input 2)))).
  { apply (reachable_call test_meta_data (batch_input 2)
             (call_add_component_info "A" 1 3)).
    - by apply (reachable_make test_meta_data true 2 "input").
    - discriminate. }
  split; [exact Hr|].
  destruct (reachable_invariant test_meta_data _ Hr) as (Hwf & _ & Hn).
  split; [exact Hwf|exact Hn].
Defined.

(** X2. A call, whether it returns or throws, never changes the batch
    flag, the batch size or the dataset of a handler, never removes,
    reorders or changes an entry of the description, and adds at most one
    component: every component attached before is still attached, at the
    same index and with the same [ComponentInfo]. *)
Theorem call_keeps_attached (k : call) (h : t) :
  fst (run_call k h) <> Undefined ->
  is_batch (snd (run_call k h)) = is_batch h
  /\ batch_size (snd (run_call k h)) = batch_size h
  /\ dataset (snd (run_call k h)) = dataset h
  /\ component_info (get_description h)
       `prefix_of` component_info (get_description (snd (run_call k h)))
  /\ n_components h <= n_components (snd (run_call k h)) <= n_components h + 1
  /\ forall c, attached h c ->
       attached (snd (run_call k h)) c
       /\ find_component (snd (run_call k h)) c false = find_component h c false
       /\ get_component_info (snd (run_call k h)) c = get_component_info h c.
Proof.
  intros _.
  destruct (run_call_extends k h) as (Hib & Hbs & Hds & extra & Hci & Hlen & Hone).
  split; [exact Hib|]. split; [exact Hbs|]. split; [exact Hds|].
  unfold get_description.
  split; [by exists extra|].
  split; [unfold n_components; lia|].
  intros c Ha.
  assert (Hlt : (find_if (name_is c) (component_info (description_ h))
                 < length (component_info (description_ h)))%nat).
  { pose proof (find_if_le (name_is c) (component_info (description_ h))).
    destruct (decide (find_if (name_is c) (component_info (description_ h))
                      = length (component_info (description_ h)))) as [E|E]; [|lia].
    by apply not_attached_find_if in E. }
  assert (Hfind : forall b,
             find_component (snd (run_call k h)) c b = find_component h c b).
  { intros b. unfold find_component. rewrite Hci.
    rewrite (find_if_app_hit _ _ _ Hlt), length_app.
    destruct (Nat.eqb_spec (find_if (name_is c) (component_info (description_ h)))
                (length (component_info (description_ h)) + length extra));
      [lia|].
    destruct (Nat.eqb_spec (find_if (name_is c) (component_info (description_ h)))
                (length (component_info (description_ h)))); [lia|done]. }
  split.
  { destruct Ha as (x & Hx & Hn). exists x. split; [|done].
    rewrite Hci. apply elem_of_app. by left. }
  split; [apply Hfind|].
  unfold get_component_info. rewrite Hfind.
  unfold find_component.
  destruct (Nat.eqb_spec (find_if (name_is c) (component_info (description_ h)))
              (length (component_info (description_ h)))); [lia|].
  unfold at_index.
  destruct (Z.ltb_spec (Z.of_nat (find_if (name_is c) (component_info (description_ h)))) 0);
    [lia|].
  rewrite Nat2Z.id, Hci. by rewrite lookup_app_l.
Qed.

Lemma call_keeps_attached_witness :
  fst (run_call (call_add_buffer "B" (-1) 3 (Some [1; 2; 3]) 2000) ragged_A)
  <> Undefined
  /\ component_info (get_description ragged_A)
       `prefix_of`
       component_info (get_description
         (snd (run_call (call_add_buffer "B" (-1) 3 (Some [1; 2; 3]) 2000) ragged_A))).
Proof.
  assert (Hd : fst (run_call (call_add_buffer "B" (-1) 3 (Some [1; 2; 3]) 2000)
                      ragged_A) <> Undefined) by discriminate.
  split; [exact Hd|].
  exact (proj1 (proj2 (proj2 (proj2 (call_keeps_attached _ ragged_A Hd))))).
Defined.

(** X3. In a handler built by calls that all returned, every uniform
    component satisfies
    [total_elements = elements_per_scenario * batch_size]. *)
Theorem built_uniform_cardinality (meta : list MetaDataset) (h : t) :
  built meta h ->
  forall info, info ∈ component_info (get_description h) ->
    0 <= elements_per_scenario info ->
    total_elements info = elements_per_scenario info * batch_size h.
Proof.
  unfold get_description.
  induction 1 as [b n d h Hm|h k Hb IH Hok]; intros info Hin He.
  - unfold make in Hm. destruct (get_dataset meta d); [|done|done].
    destruct (negb b && negb (n =? 1)); [done|].
    injection Hm as <-. inversion Hin.
  - assert (Hnew : forall c e tot h',
               add_component_info c e tot h = (Returns tt, h') ->
               info ∈ component_info (description_ h') ->
               total_elements info = elements_per_scenario info * batch_size h).
    { intros c e tot h' Hadd Hin'.
      destruct (add_component_info_returns _ _ _ _ _ Hadd)
        as (m & _ & _ & _ & -> & Hcard).
      rewrite component_info_pushed in Hin'.
      apply elem_of_app in Hin' as [Hin'|Hin']; [by apply IH|].
      apply list_elem_of_singleton in Hin'. subst info. simpl in *.
      by apply Hcard. }
    destruct (run_call_extends k h) as (_ & -> & _).
    destruct k as [c e tot|c e tot ip d|c ip d]; simpl in *.
    + destruct (add_component_info c e tot h) as [o h'] eqn:Hadd.
      simpl in Hok. subst o. by eapply Hnew.
    + destruct (add_buffer_shape c e tot ip d h)
        as [[Hne _]|(m & sp & Hadd & _ & _ & E)]; [done|].
      rewrite E in Hin. simpl in Hin. by eapply Hnew.
    + destruct (set_buffer_shape c ip d h)
        as [[Hne _]|(i & info0 & b0 & sp & _ & _ & _ & _ & _ & E)]; [done|].
      rewrite E in Hin. simpl in Hin. by apply IH.
Qed.

Lemma built_uniform_cardinality_witness :
  built test_meta_data (snd (add_buffer "A" 3 6 None 1000 (batch_input 2)))
  /\ forall info,
      info ∈ component_info (get_description
               (snd (add_buffer "A" 3 6 None 1000 (batch_input 2)))) ->
      0 <= elements_per_scenario info ->
      total_elements info
      = elements_per_scenario info
        * batch_size (snd (add_buffer "A" 3 6 None 1000 (batch_input 2))).
Proof.
  assert (Hb : built test_meta_data
                 (snd (add_buffer "A" 3 6 None 1000 (batch_input 2)))).
  { apply (built_call test_meta_data (batch_input 2)
             (call_add_buffer "A" 3 6 None 1000)).
    - by apply (built_make test_meta_data true 2 "input").
    - reflexivity. }
  split; [exact Hb|].
  exact (built_uniform_cardinality test_meta_data _ Hb).
Defined.
End Invariants.

(** ** Attaching and looking up *)

Section AttachLookup.
Import DatasetHandler.

Lemma find_component_true_false (h : t) (c : string) (i : Idx) :
  find_component h c true = Returns i -> find_component h c false = Returns i.
Proof.
  unfold find_component. destruct (_ =? _)%nat; [done|done].
Qed.

(** The entry pushed last is found at the old number of components. *)
Lemma lookup_pushed (h : t) (m : MetaComponent) (e tot : Idx) (h' : t) (b : Buffer) :
  wf h -> ~ attached h (name m) ->
  get_component (dataset h) (name m) = Returns m ->
  description_ h' = description_ (pushed (Build_ComponentInfo m e tot) h) ->
  buffers_ h' = buffers_ h ++ [b] ->
  wf h'
  /\ (forall t0, find_component h' (name m) t0 = Returns (n_components h))
  /\ get_component_info h' (name m) = Returns (Build_ComponentInfo m e tot)
  /\ get_buffer h' (name m) = Returns b
  /\ n_components h' = n_components h + 1.
Proof.
  intros Hwf Hn Hm Hd Hb.
  assert (Hwf' : wf h').
  { pose proof (wf_pushed (name m) m e tot h Hwf Hn Hm eq_refl) as [Hl Hnd Hk].
    split.
    - rewrite Hb, Hd, length_app. rewrite buffers_pushed, length_app in Hl.
      exact Hl.
    - by rewrite Hd.
    - intros x Hx. rewrite Hd in Hx. unfold dataset. rewrite Hd. by apply Hk. }
  assert (Hi : component_info (description_ h')
               !! length (component_info (description_ h))
               = Some (Build_ComponentInfo m e tot)).
  { rewrite Hd, component_info_pushed. by rewrite list_lookup_middle. }
  assert (Hbuf : buffers_ h' !! length (component_info (description_ h)) = Some b).
  { rewrite Hb, <- (wf_length h Hwf). by rewrite list_lookup_middle. }
  assert (Hidx : n_components h
                 = Z.of_nat (length (component_info (description_ h)))).
  { unfold n_components. by rewrite (wf_length h Hwf). }
  assert (Hfind : forall t0, find_component h' (name m) t0 = Returns (n_components h)).
  { intros t0. rewrite Hidx.
    exact (find_component_at h' _ (Build_ComponentInfo m e tot) t0 Hwf' Hi). }
  split; [exact Hwf'|]. split; [exact Hfind|]. split; [|split].
  - unfold get_component_info. rewrite Hfind, Hidx. by apply at_index_of_nat.
  - unfold get_buffer, get_buffer_idx. rewrite Hfind, Hidx. by apply at_index_of_nat.
  - unfold n_components. rewrite Hb, length_app. simpl. lia.
Qed.

(** X4. After [add_component_info] returned on a well-formed handler, the
    component is found at the index that was the number of components,
    [get_component_info] gives back the cardinalities passed, [get_buffer]
    gives the empty buffer (null data, empty offset index), and the number
    of components has grown by one. *)
Theorem add_component_info_then_lookup (h h' : t) (c : string) (e tot : Idx) :
  wf h -> add_component_info c e tot h = (Returns tt, h') ->
  exists m,
    get_component (dataset h) c = Returns m
    /\ find_component h' c false = Returns (n_components h)
    /\ get_component_info h' c = Returns (Build_ComponentInfo m e tot)
    /\ get_buffer h' c = Returns Buffer_default
    /\ n_components h' = n_components h + 1.
Proof.
  intros Hwf Hadd.
  destruct (add_component_info_returns _ _ _ _ _ Hadd) as (m & Hn & Hm & <- & -> & _).
  destruct (lookup_pushed h m e tot (pushed (Build_ComponentInfo m e tot) h)
              Buffer_default Hwf Hn Hm eq_refl eq_refl)
    as (_ & Hf & Hi & Hb & Hc).
  exists m. by rewrite Hf.
Qed.

Lemma add_component_info_then_lookup_witness :
  wf ragged_A
  /\ exists m,
      get_component (dataset ragged_A) "B" = Returns m
      /\ find_component (snd (add_component_info "B" 0 0 ragged_A)) "B" false
         = Returns (n_components ragged_A)
      /\ get_component_info (snd (add_component_info "B" 0 0 ragged_A)) "B"
         = Returns (Build_ComponentInfo m 0 0)
      /\ get_buffer (snd (add_component_info "B" 0 0 ragged_A)) "B"
         = Returns Buffer_default
      /\ n_components (snd (add_component_info "B" 0 0 ragged_A))
         = n_components ragged_A + 1.
Proof.
  split; [exact wf_ragged_A|].
  exact (add_component_info_then_lookup ragged_A _ "B" 0 0 wf_ragged_A eq_refl).
Defined.

(** X5. After [add_buffer] returned on a well-formed handler, [get_buffer]
    of the component gives the data pointer passed and an offset index
    that is the pointer passed with [batch_size + 1] elements, or empty for
    a null pointer; [get_component_info] gives the cardinalities passed,
    and the component is found at the index that was the number of
    components. *)
Theorem add_buffer_then_lookup
        (h h' : t) (c : string) (e tot : Idx) (ip : Indptr) (d : Data) :
  wf h -> add_buffer c e tot ip d h = (Returns tt, h') ->
  exists m,
    get_component (dataset h) c = Returns m
    /\ find_component h' c false = Returns (n_components h)
    /\ get_component_info h' c = Returns (Build_ComponentInfo m e tot)
    /\ get_buffer h' c
       = Returns (Build_Buffer d
                    match ip with
                    | Some arr => mk_span (Some arr) (to_size_t (batch_size h + 1))
                    | None => empty_span
                    end)
    /\ n_components h' = n_components h + 1.
Proof.
  intros Hwf Hadd.
  destruct (add_buffer_shape c e tot ip d h)
    as [[Hne _]|(m & sp & Hinfo & Hsp & _ & E)].
  { by rewrite Hadd in Hne. }
  rewrite E in Hadd. injection Hadd as <-.
  destruct (add_component_info_returns _ _ _ _ _ Hinfo) as (m' & Hn & Hm & <- & Hp & _).
  assert (m' = m).
  { assert (L : last (component_info (description_
                  (pushed (Build_ComponentInfo m' e tot) h)))
                = last (component_info (description_
                  (pushed (Build_ComponentInfo m e tot) h)))) by by rewrite Hp.
    rewrite !component_info_pushed, !last_snoc in L. by injection L. }
  subst m'.
  destruct (lookup_pushed h m e tot
              (assign_buffer (length (buffers_ h)) (Build_Buffer d sp)
                 (pushed (Build_ComponentInfo m e tot) h))
              (Build_Buffer d sp) Hwf Hn Hm eq_refl)
    as (_ & Hf & Hi & Hb & Hc).
  { simpl.
    replace (length (buffers_ h)) with (length (buffers_ h) + 0)%nat at 1 by lia.
    by rewrite insert_app_r. }
  exists m. rewrite Hf, Hi, Hb. repeat split; try done.
  do 2 f_equal. unfold make_indptr_span in Hsp. destruct ip as [arr|].
  - unfold Idx_add in Hsp. destruct (in_Idxb _); [|done]. by injection Hsp.
  - by injection Hsp.
Qed.

Lemma add_buffer_then_lookup_witness :
  wf ragged_A
  /\ exists m,
      get_component (dataset ragged_A) "B" = Returns m
      /\ find_component (snd (add_buffer "B" (-1) 3 (Some [0; 0; 3]) 2000 ragged_A))
           "B" false
         = Returns (n_components ragged_A)
      /\ get_component_info
           (snd (add_buffer "B" (-1) 3 (Some [0; 0; 3]) 2000 ragged_A)) "B"
         = Returns (Build_ComponentInfo m (-1) 3)
      /\ get_buffer (snd (add_buffer "B" (-1) 3 (Some [0; 0; 3]) 2000 ragged_A)) "B"
         = Returns (Build_Buffer 2000
                      (mk_span (Some [0; 0; 3])
                         (to_size_t (batch_size ragged_A + 1))))
      /\ n_components (snd (add_buffer "B" (-1) 3 (Some [0; 0; 3]) 2000 ragged_A))
         = n_components ragged_A + 1.
Proof.
  split; [exact wf_ragged_A|].
  exact (add_buffer_then_lookup ragged_A _ "B" (-1) 3 (Some [0; 0; 3]) 2000
           wf_ragged_A eq_refl).
Defined.
End AttachLookup.

(** ** A call only touches the component it names *)

Section Frame.
Import DatasetHandler.

(** The entries a call adds carry the name the call was given. *)
Lemma run_call_extra_name (k : call) (h : t) (extra : list ComponentInfo) :
  component_info (description_ (snd (run_call k h)))
  = component_info (description_ h) ++ extra ->
  forall x, x ∈ extra -> name (component x) = call_component k.
Proof.
  intros Hci x Hx.
  assert (Hsame : snd (run_call k h) = h -> False).
  { intros E. rewrite E in Hci.
    assert (L : length (component_info (description_ h))
                = length (component_info (description_ h) ++ extra))
      by by rewrite <- Hci.
    rewrite length_app in L. destruct extra; [inversion Hx|simpl in L; lia]. }
  assert (Hpush : forall c m e tot h',
             description_ h' = description_ (pushed (Build_ComponentInfo m e tot) h) ->
             snd (run_call k h) = h' -> name m = c ->
             name (component x) = c).
  { intros c m e tot h' Hd E Hname. rewrite E, Hd, component_info_pushed in Hci.
    apply app_inv_head in Hci. subst extra.
    apply list_elem_of_singleton in Hx. by subst x. }
  destruct k as [c e tot|c e tot ip d|c ip d]; cbn [run_call call_component] in *.
  - destruct (add_component_info_shape c e tot h) as [Hs|(m & _ & Hm & E)];
      [done|].
    eapply (Hpush c m e tot); [reflexivity|by rewrite E|by eapply get_component_name].
  - destruct (add_buffer_shape c e tot ip d h)
      as [[_ Hs]|(m & sp & Hadd & _ & _ & E)].
    + destruct (add_component_info_shape c e tot h) as [Hs'|(m & _ & Hm & E)].
      * exfalso. apply Hsame. by rewrite Hs.
      * eapply (Hpush c m e tot);
          [reflexivity|by rewrite Hs, E|by eapply get_component_name].
    + destruct (add_component_info_returns _ _ _ _ _ Hadd) as (m' & _ & Hm & Hn & _).
      eapply (Hpush c m e tot); [|by rewrite E|]; [reflexivity|].
      destruct (add_component_info_shape c e tot h) as [Hs'|(m2 & _ & Hm2 & E2)].
      * rewrite Hadd in Hs'. simpl in Hs'.
        assert (L : length (buffers_ (pushed (Build_ComponentInfo m e tot) h))
                    = length (buffers_ h)) by by rewrite Hs'.
        rewrite buffers_pushed, length_app in L. simpl in L. lia.
      * rewrite Hadd in E2.
        pose proof (f_equal (fun r => last (component_info (description_ (snd r)))) E2)
          as L.
        simpl in L. rewrite !last_snoc in L.
        injection L as ->. by eapply get_component_name.
  - destruct (set_buffer_shape c ip d h)
      as [[_ Hs]|(i & info & b0 & sp & _ & _ & _ & _ & _ & E)]; [done|].
    exfalso. rewrite E in Hci. simpl in Hci.
    assert (L : length (component_info (description_ h))
                = length (component_info (description_ h) ++ extra))
      by by rewrite <- Hci.
    rewrite length_app in L. destruct extra; [inversion Hx|simpl in L; lia].
Qed.

(** A call leaves the buffers of the other components alone. *)
Lemma run_call_other_buffers (k : call) (h : t) (j : nat) (b : Buffer) :
  buffers_ h !! j = Some b ->
  find_component h (call_component k) true <> Returns (Z.of_nat j) ->
  buffers_ (snd (run_call k h)) !! j = Some b.
Proof.
  intros Hj Hne.
  assert (Hpush : buffers_ (pushed (Build_ComponentInfo (Build_MetaComponent "") 0 0) h)
                  !! j = Some b).
  { rewrite buffers_pushed. rewrite lookup_app_l; [done|]. by eapply lookup_lt_Some. }
  assert (Hlt : (j < length (buffers_ h))%nat) by by eapply lookup_lt_Some.
  destruct k as [c e tot|c e tot ip d|c ip d]; cbn [run_call call_component] in *.
  - destruct (add_component_info_shape c e tot h) as [->|(m & _ & _ & E)]; [done|].
    rewrite E. simpl. by rewrite lookup_app_l.
  - destruct (add_buffer_shape c e tot ip d h)
      as [[_ ->]|(m & sp & _ & _ & _ & E)].
    + destruct (add_component_info_shape c e tot h) as [->|(m & _ & _ & E)]; [done|].
      rewrite E. simpl. by rewrite lookup_app_l.
    + rewrite E. simpl. rewrite list_lookup_insert_ne by lia.
      by rewrite lookup_app_l.
  - destruct (set_buffer_shape c ip d h)
      as [[_ ->]|(i & info & b0 & sp & Hf & _ & _ & _ & _ & E)]; [done|].
    rewrite E. simpl. rewrite list_lookup_insert_ne; [done|].
    intros ->. by apply Hne.
Qed.

(** X6. A call that names component [c] changes nothing that can be seen
    of another component [c']: whether it is attached, its index, its
    [ComponentInfo] and its buffer are the same before and after, whether
    the call returns or throws. *)
Theorem call_leaves_other_components (k : call) (h : t) (c' : string) :
  wf h -> fst (run_call k h) <> Undefined -> c' <> call_component k ->
  (attached (snd (run_call k h)) c' <-> attached h c')
  /\ (forall b, find_component (snd (run_call k h)) c' b = find_component h c' b)
  /\ get_component_info (snd (run_call k h)) c' = get_component_info h c'
  /\ get_buffer (snd (run_call k h)) c' = get_buffer h c'.
Proof.
  intros Hwf _ Hc'.
  destruct (run_call_extends k h) as (_ & _ & _ & extra & Hci & _ & _).
  pose proof (run_call_extra_name k h extra Hci) as Hextra.
  assert (Hatt : attached (snd (run_call k h)) c' <-> attached h c').
  { unfold attached. rewrite Hci. split.
    - intros (x & Hx & Hn). apply elem_of_app in Hx as [Hx|Hx]; [by exists x|].
      apply Hextra in Hx. congruence.
    - intros (x & Hx & Hn). exists x. split; [|done]. apply elem_of_app. by left. }
  destruct (attached_or_not h c') as [Ha|Hn].
  - assert (Hlt : (find_if (name_is c') (component_info (description_ h))
                   < length (component_info (description_ h)))%nat).
    { pose proof (find_if_le (name_is c') (component_info (description_ h))).
      destruct (decide (find_if (name_is c') (component_info (description_ h))
                        = length (component_info (description_ h)))) as [E|E]; [|lia].
      by apply not_attached_find_if in E. }
    assert (Hfind : forall b,
               find_component (snd (run_call k h)) c' b = find_component h c' b).
    { intros b. unfold find_component. rewrite Hci.
      rewrite (find_if_app_hit _ _ _ Hlt), length_app.
      destruct (Nat.eqb_spec (find_if (name_is c') (component_info (description_ h)))
                  (length (component_info (description_ h)) + length extra));
        [lia|].
      destruct (Nat.eqb_spec (find_if (name_is c') (component_info (description_ h)))
                  (length (component_info (description_ h)))); [lia|done]. }
    split; [exact Hatt|]. split; [exact Hfind|].
    destruct (find_component_present h c' true Ha) as (i & x & Hf & Hi & Hname & _).
    unfold get_component_info, get_buffer, get_buffer_idx. rewrite Hfind, Hf.
    split.
    + rewrite (at_index_of_nat _ _ _ Hi). apply at_index_of_nat.
      rewrite Hci. rewrite lookup_app_l; [done|]. by eapply lookup_lt_Some.
    + destruct (lookup_lt_is_Some_2 (buffers_ h) i) as [b Hb].
      { rewrite (wf_length h Hwf). by eapply lookup_lt_Some. }
      rewrite (at_index_of_nat _ _ _ Hb). apply at_index_of_nat.
      apply run_call_other_buffers; [done|].
      intros Hk.
      destruct (find_component_present h (call_component k) true)
        as (i' & x' & Hf' & Hi' & Hname' & _).
      { eapply find_component_attached; [exact Hk|lia]. }
      rewrite Hf' in Hk. injection Hk as Hk. apply Nat2Z.inj in Hk. subst i'.
      rewrite Hi in Hi'. injection Hi' as <-. congruence.
  - assert (Hn' : ~ attached (snd (run_call k h)) c') by by rewrite Hatt.
    split; [exact Hatt|]. split.
    + intros b. by rewrite !find_component_absent.
    + unfold get_component_info, get_buffer. by rewrite !find_component_absent.
Qed.

Lemma call_leaves_other_components_witness :
  wf batch_A_B
  /\ fst (run_call (call_set_buffer "B" (Some [0; 1; 3]) 3000) batch_A_B) <> Undefined
  /\ "A" <> call_component (call_set_buffer "B" (Some [0; 1; 3]) 3000)
  /\ get_buffer (snd (run_call (call_set_buffer "B" (Some [0; 1; 3]) 3000) batch_A_B)) "A"
     = get_buffer batch_A_B "A".
Proof.
  assert (Hd : fst (run_call (call_set_buffer "B" (Some [0; 1; 3]) 3000) batch_A_B)
               <> Undefined) by discriminate.
  assert (Hc : "A" <> call_component (call_set_buffer "B" (Some [0; 1; 3]) 3000))
    by discriminate.
  split; [exact wf_batch_A_B|]. split; [exact Hd|]. split; [exact Hc|].
  exact (proj2 (proj2 (proj2
           (call_leaves_other_components _ batch_A_B "A" wf_batch_A_B Hd Hc)))).
Defined.
End Frame.

(** ** Supplying buffers to attached components *)

Section SetBufferExtra.
Import DatasetHandler.

Lemma find_component_returns (h : t) (c : string) (b : bool) (i : Idx) :
  find_component h c b = Returns i -> 0 <= i ->
  exists info, component_info (description_ h) !! Z.to_nat i = Some info
               /\ name (component info) = c.
Proof.
  intros Hf Hi.
  pose proof (find_component_attached h c b i Hf Hi) as Ha.
  destruct (find_component_present h c b Ha) as (j & x & Hj & Hx & Hn & _).
  rewrite Hf in Hj. injection Hj as ->. exists x. by rewrite Nat2Z.id.
Qed.

(** What a successful [add_buffer] went through. *)
Lemma add_buffer_returns (c : string) (e tot : Idx) (ip : Indptr) (d : Data) (h h' : t) :
  add_buffer c e tot ip d h = (Returns tt, h') ->
  exists m sp,
    ~ attached h c
    /\ get_component (dataset h) c = Returns m
    /\ name m = c
    /\ add_component_info c e tot h
       = (Returns tt, pushed (Build_ComponentInfo m e tot) h)
    /\ fst (check_non_uniform_integrity true e tot ip
              (pushed (Build_ComponentInfo m e tot) h)) = Returns tt
    /\ make_indptr_span ip h = Returns sp
    /\ h' = assign_buffer (length (buffers_ h)) (Build_Buffer d sp)
              (pushed (Build_ComponentInfo m e tot) h).
Proof.
  intros Hr. rewrite add_buffer_unfold in Hr.
  destruct (add_component_info c e tot h) as [[[]| |] h1] eqn:Hadd;
    [|done|done].
  destruct (add_component_info_returns _ _ _ _ _ Hadd) as (m & Hn & Hm & Hname & -> & _).
  pose proof (check_non_uniform_state true e tot ip
                (pushed (Build_ComponentInfo m e tot) h)) as Hs.
  destruct (check_non_uniform_integrity true e tot ip _) as [[[]| |] h2] eqn:Hc;
    simpl in Hs; subst h2; [|done|done].
  unfold set_back in Hr. rewrite buffers_pushed, length_app in Hr. simpl in Hr.
  rewrite Nat.add_1_r in Hr.
  change (make_indptr_span ip (pushed (Build_ComponentInfo m e tot) h))
    with (make_indptr_span ip h) in Hr.
  destruct (make_indptr_span ip h) as [sp| |] eqn:Hsp; [|done|done].
  injection Hr as <-. exists m, sp. by rewrite Hc.
Qed.

(** Passing the check with the content of the offset index implies
    passing the check without. *)
Lemma check_non_uniform_without_content (e tot : Idx) (ip : Indptr) (h h' : t) :
  batch_size h = batch_size h' ->
  fst (check_non_uniform_integrity true e tot ip h) = Returns tt ->
  check_non_uniform_integrity false e tot ip h' = (Returns tt, h').
Proof.
  intros _. unfold check_non_uniform_integrity.
  destruct (e <? 0), ip as [arr|]; try done.
Qed.

(** X7. On a well-formed handler whose batch size can be incremented,
    [set_buffer] returns exactly when the component is attached and an
    offset index is passed if and only if the component is ragged
    ([elements_per_scenario < 0]); otherwise it throws [DatasetError] and
    leaves the handler as it was. *)
Theorem set_buffer_succeeds_iff (h : t) (c : string) (ip : Indptr) (d : Data) :
  wf h -> in_Idx (batch_size h + 1) ->
  (fst (set_buffer c ip d h) = Returns tt
   <-> exists info, get_component_info h c = Returns info
                    /\ (elements_per_scenario info < 0 <-> ip <> None))
  /\ (fst (set_buffer c ip d h) <> Returns tt ->
      set_buffer c ip d h = (Throws DatasetError, h)).
Proof.
  intros Hwf Hbs. destruct (attached_or_not h c) as [Ha|Hn].
  - destruct (find_component_present h c true Ha) as (i & info & Hf & Hi & <- & _).
    assert (Hget : get_component_info h (name (component info)) = Returns info).
    { unfold get_component_info. rewrite Hf. by apply at_index_of_nat. }
    rewrite (set_buffer_attached h i info ip d Hwf Hi), Hget.
    destruct (Z.lt_ge_cases (elements_per_scenario info) 0) as [He|He].
    + destruct ip as [arr|].
      * rewrite check_non_uniform_no_content by assumption.
        unfold make_indptr_span. rewrite Idx_add_exact by assumption. simpl.
        split; [|done]. split; [|done]. intros _. exists info. split; [done|].
        split; done.
      * rewrite check_non_uniform_ragged_null by assumption. simpl.
        split; [|done]. split; [done|]. intros (info' & [= <-] & [Hx _]).
        exfalso. exact (Hx He eq_refl).
    + rewrite check_non_uniform_uniform by assumption.
      destruct ip as [arr|]; simpl.
      * split; [|done]. split; [done|]. intros (info' & [= <-] & [_ Hx]).
        assert (elements_per_scenario info < 0) by by apply Hx. lia.
      * split; [|done]. split; [|done]. intros _. exists info. split; [done|].
        split; [lia|done].
  - assert (E : set_buffer c ip d h = (Throws DatasetError, h)).
    { unfold set_buffer, bind, const. by rewrite (find_component_absent h c true Hn). }
    rewrite E. simpl. split; [|done]. split; [done|].
    intros (info & Hget & _). unfold get_component_info in Hget.
    by rewrite (find_component_absent h c true Hn) in Hget.
Qed.

Lemma set_buffer_succeeds_iff_witness :
  wf batch_A_B /\ in_Idx (batch_size batch_A_B + 1)
  /\ (fst (set_buffer "A" (Some [0; 3; 6]) 1000 batch_A_B) <> Returns tt ->
      set_buffer "A" (Some [0; 3; 6]) 1000 batch_A_B
      = (Throws DatasetError, batch_A_B)).
Proof.
  assert (Hbs : in_Idx (batch_size batch_A_B + 1)).
  { split; apply Z.leb_le; reflexivity. }
  split; [exact wf_batch_A_B|]. split; [exact Hbs|].
  exact (proj2 (set_buffer_succeeds_iff batch_A_B "A" (Some [0; 3; 6]) 1000
                  wf_batch_A_B Hbs)).
Defined.

(** X8. After [set_buffer] returned on a well-formed handler, the
    description and the number of components are unchanged, [get_buffer]
    of the component gives the data pointer and the offset index passed
    (with [batch_size + 1] elements, or empty for a null pointer), and the
    buffer set before is forgotten: a further [set_buffer] of that
    component ends as it would have without the first one. *)
Theorem set_buffer_then_get_buffer (h h' : t) (c : string) (ip : Indptr) (d : Data) :
  wf h -> set_buffer c ip d h = (Returns tt, h') ->
  get_description h' = get_description h
  /\ n_components h' = n_components h
  /\ get_buffer h' c
     = Returns (Build_Buffer d
                  match ip with
                  | Some arr => mk_span (Some arr) (to_size_t (batch_size h + 1))
                  | None => empty_span
                  end)
  /\ forall ip2 d2 h2,
      set_buffer c ip2 d2 h = (Returns tt, h2) ->
      set_buffer c ip2 d2 h' = (Returns tt, h2).
Proof.
  intros Hwf Hr.
  destruct (set_buffer_shape c ip d h)
    as [[Hne _]|(i & info & b0 & sp & Hf & Hi & Hb & _ & Hsp & E)].
  { by rewrite Hr in Hne. }
  rewrite E in Hr. injection Hr as <-.
  destruct (find_component_returns h c true _ Hf) as (info' & Hi' & Hname); [lia|].
  rewrite Nat2Z.id, Hi in Hi'. injection Hi' as <-. subst c.
  assert (Hwf' : wf (assign_buffer i (Build_Buffer d sp) h)) by by apply wf_assign_buffer.
  split; [done|]. split.
  { unfold n_components. simpl. by rewrite length_insert. }
  split.
  { unfold get_buffer, get_buffer_idx.
    change (find_component (assign_buffer i (Build_Buffer d sp) h)
              (name (component info)) true)
      with (find_component h (name (component info)) true).
    rewrite Hf. erewrite at_index_of_nat.
    2:{ simpl. apply list_lookup_insert_eq. by eapply lookup_lt_Some. }
    do 2 f_equal. unfold make_indptr_span in Hsp. destruct ip as [arr|].
    - unfold Idx_add in Hsp. destruct (in_Idxb _); [|done]. by injection Hsp.
    - by injection Hsp. }
  intros ip2 d2 h2 Hr2.
  rewrite (set_buffer_attached h i info ip2 d2 Hwf Hi) in Hr2.
  rewrite (set_buffer_attached (assign_buffer i (Build_Buffer d sp) h) i info
             ip2 d2 Hwf' Hi).
  pose proof (check_non_uniform_outcome false (elements_per_scenario info)
                (total_elements info) ip2 h
                (assign_buffer i (Build_Buffer d sp) h) eq_refl) as Ho.
  destruct (check_non_uniform_integrity false _ _ ip2 h) as [o1 s1].
  destruct (check_non_uniform_integrity false _ _ ip2 (assign_buffer _ _ h))
    as [o2 s2].
  simpl in Ho. subst o2. destruct o1 as [[]| |]; [|done|done].
  change (make_indptr_span ip2 (assign_buffer i (Build_Buffer d sp) h))
    with (make_indptr_span ip2 h).
  destruct (make_indptr_span ip2 h) as [sp2| |]; [|done|done].
  injection Hr2 as <-. f_equal. unfold assign_buffer. simpl. f_equal.
  apply list_insert_insert_eq.
Qed.

Lemma set_buffer_then_get_buffer_witness :
  wf ragged_A
  /\ get_buffer (snd (set_buffer "A" (Some [1; 3; 7]) 1000 ragged_A)) "A"
     = Returns (Build_Buffer 1000
                  (mk_span (Some [1; 3; 7]) (to_size_t (batch_size ragged_A + 1)))).
Proof.
  split; [exact wf_ragged_A|].
  exact (proj1 (proj2 (proj2
           (set_buffer_then_get_buffer ragged_A _ "A" (Some [1; 3; 7]) 1000
              wf_ragged_A eq_refl)))).
Defined.

(** X9. Whenever [add_buffer] returns on a well-formed handler, calling
    [add_component_info] with the same cardinalities and then [set_buffer]
    with the same pointers returns as well and builds the same handler. *)
Theorem add_buffer_as_two_calls
        (h h' : t) (c : string) (e tot : Idx) (ip : Indptr) (d : Data) :
  wf h -> add_buffer c e tot ip d h = (Returns tt, h') ->
  exists h1,
    add_component_info c e tot h = (Returns tt, h1)
    /\ set_buffer c ip d h1 = (Returns tt, h').
Proof.
  intros Hwf Hr.
  destruct (add_buffer_returns _ _ _ _ _ _ _ Hr)
    as (m & sp & Hn & Hm & Hname & Hadd & Hchk & Hsp & ->).
  exists (pushed (Build_ComponentInfo m e tot) h). split; [exact Hadd|].
  assert (Hwf1 : wf (pushed (Build_ComponentInfo m e tot) h))
    by by apply (wf_pushed c).
  assert (Hi : component_info (description_ (pushed (Build_ComponentInfo m e tot) h))
               !! length (component_info (description_ h))
               = Some (Build_ComponentInfo m e tot)).
  { rewrite component_info_pushed. by rewrite list_lookup_middle. }
  pose proof (set_buffer_attached _ _ _ ip d Hwf1 Hi) as E.
  simpl in E. rewrite Hname in E. rewrite E.
  rewrite (check_non_uniform_without_content e tot ip
             (pushed (Build_ComponentInfo m e tot) h)
             (pushed (Build_ComponentInfo m e tot) h) eq_refl Hchk).
  change (make_indptr_span ip (pushed (Build_ComponentInfo m e tot) h))
    with (make_indptr_span ip h).
  rewrite Hsp. by rewrite (wf_length h Hwf).
Qed.

Lemma add_buffer_as_two_calls_witness :
  wf ragged_A
  /\ exists h1,
      add_component_info "B" (-1) 3 ragged_A = (Returns tt, h1)
      /\ set_buffer "B" (Some [0; 0; 3]) 2000 h1
         = (Returns tt, snd (add_buffer "B" (-1) 3 (Some [0; 0; 3]) 2000 ragged_A)).
Proof.
  split; [exact wf_ragged_A|].
  exact (add_buffer_as_two_calls ragged_A _ "B" (-1) 3 (Some [0; 0; 3]) 2000
           wf_ragged_A eq_refl).
Defined.
End SetBufferExtra.

(** ** Look-ups by name, early failures and edge cases *)

Section Misc.
Import DatasetHandler.

(** X10. On a well-formed handler the look-ups by name never read outside
    the two vectors: for an attached component [get_component_info] and
    [get_buffer] return the entry and the buffer stored at the index
    [find_component] gives, and for any other name both throw
    [DatasetError]. *)
Theorem lookups_by_name_are_checked (h : t) (c : string) :
  wf h ->
  (attached h c ->
   exists (i : nat) (info : ComponentInfo) (b : Buffer),
     find_component h c true = Returns (Z.of_nat i)
     /\ component_info (get_description h) !! i = Some info
     /\ buffers_ h !! i = Some b
     /\ name (component info) = c
     /\ get_component_info h c = Returns info
     /\ get_buffer h c = Returns b)
  /\ (~ attached h c ->
      get_component_info h c = Throws DatasetError
      /\ get_buffer h c = Throws DatasetError)
  /\ get_component_info h c <> Undefined
  /\ get_buffer h c <> Undefined.
Proof.
  intros Hwf.
  assert (H1 : attached h c ->
               exists (i : nat) (info : ComponentInfo) (b : Buffer),
                 find_component h c true = Returns (Z.of_nat i)
                 /\ component_info (description_ h) !! i = Some info
                 /\ buffers_ h !! i = Some b
                 /\ name (component info) = c
                 /\ get_component_info h c = Returns info
                 /\ get_buffer h c = Returns b).
  { intros Ha.
    destruct (find_component_present h c true Ha) as (i & info & Hf & Hi & Hn & _).
    destruct (lookup_lt_is_Some_2 (buffers_ h) i) as [b Hb].
    { rewrite (wf_length h Hwf). by eapply lookup_lt_Some. }
    exists i, info, b. unfold get_component_info, get_buffer, get_buffer_idx.
    rewrite Hf, (at_index_of_nat _ _ _ Hi), (at_index_of_nat _ _ _ Hb). done. }
  assert (H2 : ~ attached h c ->
               get_component_info h c = Throws DatasetError
               /\ get_buffer h c = Throws DatasetError).
  { intros Hn. unfold get_component_info, get_buffer.
    by rewrite (find_component_absent h c true Hn). }
  split; [exact H1|]. split; [exact H2|].
  destruct (attached_or_not h c) as [Ha|Hn].
  - destruct (H1 Ha) as (i & info & b & _ & _ & _ & _ & -> & ->). done.
  - destruct (H2 Hn) as [-> ->]. done.
Qed.

Lemma lookups_by_name_are_checked_witness :
  wf batch_A_B
  /\ get_component_info batch_A_B "C" <> Undefined
  /\ get_buffer batch_A_B "C" <> Undefined.
Proof.
  split; [exact wf_batch_A_B|].
  exact (proj2 (proj2 (lookups_by_name_are_checked batch_A_B "C" wf_batch_A_B))).
Defined.

(** X11. On a well-formed handler names and indices determine each other:
    the entry read at an index is found again, by its name, at that index
    and nowhere else; and an index found for a name holds an entry of that
    name. *)
Theorem index_and_name_round_trip (h : t) :
  wf h ->
  (forall (i : Idx) (info : ComponentInfo),
     get_component_info_idx h i = Returns info ->
     find_component h (name (component info)) false = Returns i
     /\ get_component_info h (name (component info)) = Returns info)
  /\ (forall (i j : Idx) (x y : ComponentInfo),
        get_component_info_idx h i = Returns x ->
        get_component_info_idx h j = Returns y ->
        name (component x) = name (component y) -> i = j)
  /\ (forall (c : string) (i : Idx),
        find_component h c false = Returns i -> 0 <= i ->
        exists info, get_component_info_idx h i = Returns info
                     /\ name (component info) = c).
Proof.
  intros Hwf.
  assert (Hat : forall (i : Idx) (info : ComponentInfo),
             get_component_info_idx h i = Returns info ->
             0 <= i /\ component_info (description_ h) !! Z.to_nat i = Some info).
  { intros i info. unfold get_component_info_idx, at_index.
    destruct (Z.ltb_spec i 0); [done|].
    destruct (_ !! _) as [x|]; [|done]. intros [= ->]. split; [lia|done]. }
  assert (Hfind : forall (i : Idx) (info : ComponentInfo) b,
             get_component_info_idx h i = Returns info ->
             find_component h (name (component info)) b = Returns i).
  { intros i info b Hget. destruct (Hat i info Hget) as [Hi Hl].
    rewrite (find_component_at h _ info b Hwf Hl). f_equal. lia. }
  split; [|split].
  - intros i info Hget. split; [by apply Hfind|].
    unfold get_component_info. by rewrite (Hfind i info true Hget).
  - intros i j x y Hx Hy Hname.
    pose proof (Hfind i x false Hx) as Fi. pose proof (Hfind j y false Hy) as Fj.
    rewrite Hname in Fi. rewrite Fi in Fj. by injection Fj.
  - intros c i Hf Hi.
    destruct (find_component_returns h c false i Hf Hi) as (info & Hl & Hn).
    exists info. split; [|done].
    unfold get_component_info_idx. rewrite <- (Z2Nat.id i Hi).
    by apply at_index_of_nat.
Qed.

Lemma index_and_name_round_trip_witness :
  wf batch_A_B
  /\ forall (i : Idx) (info : ComponentInfo),
      get_component_info_idx batch_A_B i = Returns info ->
      find_component batch_A_B (name (component info)) false = Returns i
      /\ get_component_info batch_A_B (name (component info)) = Returns info.
Proof.
  split; [exact wf_batch_A_B|].
  exact (proj1 (index_and_name_round_trip batch_A_B wf_batch_A_B)).
Defined.

(** X12. The two checks [add_component_info] makes before it changes
    anything: a name already attached is refused with [DatasetError], and
    otherwise a name the dataset kind does not have fails in the meta-data
    look-up ([std::out_of_range]); in both cases the handler is left as it
    was, and [add_buffer] fails in the same way. *)
Theorem add_rejects_duplicate_and_unknown
        (h : t) (c : string) (e tot : Idx) (ip : Indptr) (d : Data) :
  (attached h c ->
   add_component_info c e tot h = (Throws DatasetError, h)
   /\ add_buffer c e tot ip d h = (Throws DatasetError, h))
  /\ (~ attached h c -> ~ known (dataset h) c ->
      add_component_info c e tot h = (Throws out_of_range, h)
      /\ add_buffer c e tot ip d h = (Throws out_of_range, h)).
Proof.
  split.
  - intros Ha. rewrite add_buffer_unfold.
    by rewrite add_component_info_duplicate.
  - intros Hn Hk. rewrite add_buffer_unfold.
    by rewrite add_component_info_unknown.
Qed.

(** X13. The content check of [add_buffer] reads the first element of the
    offset index first: when it is not 0 the call throws [DatasetError]
    without reading the element at [batch_size], whatever the batch size
    and however short the array is. *)
Theorem nonzero_first_offset_is_rejected
        (h : t) (c : string) (e tot : Idx) (arr : list Idx) (x : Idx) (d : Data) :
  known (dataset h) c -> e < 0 -> arr !! 0%nat = Some x -> x <> 0 ->
  fst (add_buffer c e tot (Some arr) d h) = Throws DatasetError.
Proof.
  intros Hk He Hx Hne. destruct (attached_or_not h c) as [Ha|Hn].
  { by rewrite add_buffer_duplicate. }
  destruct (get_component_known _ _ Hk) as (m & Hm & _).
  rewrite add_buffer_unfold, (add_component_info_fresh _ _ _ _ _ Hn Hm).
  rewrite check_uniform_ragged by assumption.
  unfold check_non_uniform_integrity.
  destruct (Z.ltb_spec e 0); [|lia].
  unfold read_indptr. simpl.
  assert (E : arr !! Z.to_nat 0 = Some x) by exact Hx.
  rewrite E. destruct (Z.eqb_spec x 0); [done|]. reflexivity.
Qed.

Lemma nonzero_first_offset_is_rejected_witness :
  known input "A" /\ -1 < 0 /\ [5] !! 0%nat = Some 5 /\ 5 <> 0
  /\ fst (add_buffer "A" (-1) 5 (Some [5]) 1000 (batch_input 2))
     = Throws DatasetError.
Proof.
  assert (Hk : known (dataset (batch_input 2)) "A").
  { exists A. split; [apply list_elem_of_here|reflexivity]. }
  assert (He : -1 < 0) by lia.
  assert (Hne : 5 <> 0) by lia.
  split; [exact Hk|]. split; [exact He|]. split; [reflexivity|].
  split; [exact Hne|].
  exact (nonzero_first_offset_is_rejected (batch_input 2) "A" (-1) 5 [5] 5 1000
           Hk He eq_refl Hne).
Defined.



(** X15. The constructor looks the dataset up first and then checks the
    batch size: for a known dataset it throws [DatasetError] exactly when
    the handler is not a batch and the batch size is not one, and
    otherwise returns a handler with the flag, the batch size and the
    dataset given and with nothing attached, on which every look-up by
    name misses. *)
Theorem make_returns_empty_handler
        (meta : list MetaDataset) (b : bool) (n : Idx) (d : string) (md : MetaDataset) :
  get_dataset meta d = Returns md ->
  (b = false /\ n <> 1 -> make meta b n d = Throws DatasetError)
  /\ (b = true \/ n = 1 ->
      exists h,
        make meta b n d = Returns h
        /\ is_batch h = b /\ batch_size h = n /\ dataset h = md
        /\ n_components h = 0
        /\ component_info (get_description h) = []
        /\ forall c,
            find_component h c false = Returns (-1)
            /\ find_component h c true = Throws DatasetError
            /\ get_component_info h c = Throws DatasetError
            /\ get_buffer h c = Throws DatasetError).
Proof.
  intros Hd. unfold make. rewrite Hd. split.
  - intros [-> Hn]. simpl. by destruct (Z.eqb_spec n 1).
  - intros Hok.
    assert (E : negb b && negb (n =? 1) = false).
    { destruct Hok as [->| ->]; [done|]. by rewrite andb_false_r. }
    rewrite E. eexists. split; [reflexivity|]. repeat split.
Qed.

Lemma make_returns_empty_handler_witness :
  get_dataset test_meta_data "update" = Returns update
  /\ (false = false /\ 0 <> 1 ->
      make test_meta_data false 0 "update" = Throws DatasetError).
Proof.
  split; [reflexivity|].
  exact (proj1 (make_returns_empty_handler test_meta_data false 0 "update" update
                  eq_refl)).
Defined.
End Misc.
